(** * pdfminer.high_level: the extraction orchestrator

    A shallow embedding of [src/pdfminer/high_level.py].  The two entry
    points, [extract_text_to_fp] and [extract_text], are sequential Python
    code that builds collaborators, iterates over the page generator of the
    Document Source and closes resources.  They are embedded in a small
    monad that threads the mutable world (the heap of Page objects, the
    file-like sinks), raises Python exceptions and records the calls made on
    collaborators as a trace of events.

    The collaborators themselves (PDFResourceManager, the converters,
    PDFPageInterpreter, PDFPage.get_pages, ImageWriter, LAParams) are
    imported by the module and are not part of it: what they compute is a
    parameter of the development, gathered in the record [Platform]. *)

From Stdlib Require Import ZArith List String Bool Lia QArith.
Import ListNotations.
Local Open Scope Z_scope.

(** ** Python values that reach the orchestrator *)

(** Values a caller may bind to a keyword argument. *)
Inductive PyVal :=
| PyNone
| PyBool (b : bool)
| PyInt (z : Z)
| PyStr (s : string).

(** The [**kwargs] dictionary: keyword names with their values. *)
Definition Kwargs := list (string * PyVal).

(** A Python object that is either [None] or a dictionary; enough to
    evaluate [kwargs is not None]. *)
Inductive PyObj :=
| ObjNone
| ObjDict (d : Kwargs).

(** [key in d] on a dictionary. *)
Definition dict_contains (key : string) (d : Kwargs) : bool :=
  existsb (fun kv => String.eqb (fst kv) key) d.

(** [o is not None]. *)
Definition is_not_None (o : PyObj) : bool :=
  match o with
  | ObjNone => false
  | ObjDict _ => true
  end.

(** Truth value of a string, and of an optional string ([None] and the
    empty string are false). *)
Definition truthy_str (s : string) : bool :=
  negb (String.eqb s EmptyString).

Definition truthy_opt_str (o : option string) : bool :=
  match o with
  | None => false
  | Some s => truthy_str s
  end.

(** Python's [%] on integers takes the sign of the divisor, as [Z.modulo]
    does. *)
Definition py_mod (a b : Z) : Z := a mod b.

(** ** Objects *)

(** Address of a Page object in the heap. *)
Definition loc := nat.

(** A file-like object opened for writing (the caller's [outfp], a
    [StringIO], [sys.stdout]). *)
Definition SinkId := nat.

(** A file-like object opened for reading. *)
Definition Stream := nat.

(** A page as the orchestrator sees it: [rotate] is the one attribute it
    reads and assigns. *)
Record Page := mkPage {
  pageid : nat;
  rotate : Z;
  contents : string
}.

Definition set_rotate (p : Page) (r : Z) : Page :=
  {| pageid := pageid p; rotate := r; contents := contents p |}.

Record RsrcMgr := mkRsrcMgr { rm_caching : bool }.

Record ImageWriter := mkImageWriter { iw_outdir : string }.

(** Modelled from the spec: the exception classes of the collaborators and
    of the file system, which the module never names; these are the kinds
    of the specification's error taxonomy. *)
Inductive CollabError :=
| DecryptionError
| PermissionError
| ParseError
| InterpretError
| IOError.

(** Exceptions a call of the module can end with: the one it raises itself
    (line 55), the two the interpreter and [io] raise on its own statements
    (an unbound local, [getvalue] on a closed file), and those of
    collaborators, which it never catches. *)
Inductive PyExn :=
| DeprecationWarning (msg : string)
| UnboundLocalError (var : string)
| ValueError (msg : string)
| Propagated (e : CollabError).

(** The arguments of one [PDFPage.get_pages] call. *)
Record GetPagesArgs := mkGetPagesArgs {
  gp_fp : Stream;
  gp_pagenos : option (list nat);
  gp_maxpages : Z;
  gp_password : string;
  gp_caching : bool;
  gp_check_extractable : bool
}.

(** What iterating the generator returned by [get_pages] does: it yields
    Page objects one by one and then stops, or raises. *)
Inductive PageSeq :=
| Stop
| Fail (e : CollabError)
| Yield (page : loc) (rest : PageSeq).

Fixpoint yielded (ps : PageSeq) : list loc :=
  match ps with
  | Stop => []
  | Fail _ => []
  | Yield l rest => l :: yielded rest
  end.

Fixpoint ends_normally (ps : PageSeq) : bool :=
  match ps with
  | Stop => true
  | Fail _ => false
  | Yield _ rest => ends_normally rest
  end.

(** No address occurs twice. *)
Fixpoint distinct (ls : list loc) : bool :=
  match ls with
  | [] => true
  | l :: rest => negb (existsb (Nat.eqb l) rest) && distinct rest
  end.

(** ** The mutable world *)

Record World := mkWorld {
  pages : loc -> Page;
  sink_text : SinkId -> string;
  sink_closed : SinkId -> bool;
  next_sink : SinkId
}.

Definition set_page (w : World) (l : loc) (p : Page) : World :=
  {| pages := fun k => if Nat.eqb k l then p else pages w k;
     sink_text := sink_text w;
     sink_closed := sink_closed w;
     next_sink := next_sink w |}.

Definition append_sink (w : World) (o : SinkId) (s : string) : World :=
  {| pages := pages w;
     sink_text := fun k => if Nat.eqb k o then String.append (sink_text w k) s
                           else sink_text w k;
     sink_closed := sink_closed w;
     next_sink := next_sink w |}.

Definition close_sink (w : World) (o : SinkId) : World :=
  {| pages := pages w;
     sink_text := sink_text w;
     sink_closed := fun k => if Nat.eqb k o then true else sink_closed w k;
     next_sink := next_sink w |}.

Definition alloc_sink (w : World) : World :=
  {| pages := pages w;
     sink_text := fun k => if Nat.eqb k (next_sink w) then EmptyString
                           else sink_text w k;
     sink_closed := fun k => if Nat.eqb k (next_sink w) then false
                             else sink_closed w k;
     next_sink := S (next_sink w) |}.

Section Orchestrator.

(** [LAParams] objects are opaque to the module. *)
Variable LAParams : Type.

(** ** Output devices

    One constructor per class, carrying the arguments the module passes. *)
Inductive Device :=
| TextConverter (rsrcmgr : RsrcMgr) (outfp : SinkId) (codec : string)
    (laparams : option LAParams) (imagewriter : option ImageWriter)
| XMLConverter (rsrcmgr : RsrcMgr) (outfp : SinkId) (codec : string)
    (laparams : option LAParams) (imagewriter : option ImageWriter)
    (stripcontrol : bool)
| HTMLConverter (rsrcmgr : RsrcMgr) (outfp : SinkId) (codec : string)
    (scale : Q) (layoutmode : string) (laparams : option LAParams)
    (imagewriter : option ImageWriter)
| TagExtractor (rsrcmgr : RsrcMgr) (outfp : SinkId) (codec : string).

Definition device_outfp (d : Device) : SinkId :=
  match d with
  | TextConverter _ o _ _ _ => o
  | XMLConverter _ o _ _ _ _ => o
  | HTMLConverter _ o _ _ _ _ _ => o
  | TagExtractor _ o _ => o
  end.

Record Interpreter := mkInterpreter {
  interp_rsrcmgr : RsrcMgr;
  interp_device : Device
}.

(** ** Calls on collaborators, as they appear in a run *)
Inductive Event :=
| EvSetLogLevelDebug
| EvNewImageWriter (iw : ImageWriter)
| EvNewResourceManager (rm : RsrcMgr)
| EvNewDevice (d : Device)
| EvNewInterpreter (i : Interpreter)
| EvGetPages (args : GetPagesArgs)
| EvProcessPage (d : Device) (l : loc) (p : Page)
| EvDeviceClose (d : Device)
| EvOpenFile (path : string) (fp : Stream)
| EvCloseFile (fp : Stream)
| EvNewStringIO (o : SinkId)
| EvCloseSink (o : SinkId).

(** ** What the module imports

    The interpreter's platform constants and the behaviour of the
    collaborators, none of which is defined in [high_level.py]. *)
Record Platform := mkPlatform {
  (** [six.PY2], [six.PY3], [sys.stdin.encoding], [str.decode] *)
  six_PY2 : bool;
  six_PY3 : bool;
  stdin_encoding : option string;
  str_decode : string -> string -> string;
  (** [sys.stdout] and [sys.stdout.buffer] *)
  sys_stdout : SinkId;
  sys_stdout_buffer : SinkId;
  (** [open(path, "rb")] *)
  fs_open : string -> CollabError + Stream;
  (** the default of [PDFResourceManager]'s [caching] parameter *)
  rsrcmgr_caching_default : bool;
  (** the default of [TextConverter]'s [imagewriter] parameter *)
  converter_imagewriter_default : option ImageWriter;
  (** the object [LAParams()] builds *)
  LAParams_default : LAParams;
  (** the generator [PDFPage.get_pages] returns *)
  get_pages : GetPagesArgs -> PageSeq;
  (** [process_page]: the text the device writes for a page, and the
      exception the call ends with, if any *)
  render : Device -> Page -> string * option CollabError;
  (** the text a device writes when it is closed *)
  close_flush : Device -> string
}.

Variable P : Platform.

(** ** The monad: world, exceptions, trace *)

Inductive Result (A : Type) :=
| Ok (a : A)
| Raise (e : PyExn).

Arguments Ok {A} a.
Arguments Raise {A} e.

Record Outcome (A : Type) := mkOutcome {
  res : Result A;
  final : World;
  events : list Event
}.

Arguments mkOutcome {A} res final events.
Arguments res {A} o.
Arguments final {A} o.
Arguments events {A} o.

Definition M (A : Type) := World -> Outcome A.

Definition ret {A} (a : A) : M A :=
  fun w => mkOutcome (Ok a) w [].

Definition raise {A} (e : PyExn) : M A :=
  fun w => mkOutcome (Raise e) w [].

Definition bind {A B} (m : M A) (f : A -> M B) : M B :=
  fun w =>
    let o := m w in
    match res o with
    | Ok a =>
        let o' := f a (final o) in
        mkOutcome (res o') (final o') (events o ++ events o')
    | Raise e => mkOutcome (Raise e) (final o) (events o)
    end.

(** [try: m finally: cleanup], for a cleanup that does not raise. *)
Definition finally {A} (m : M A) (cleanup : M unit) : M A :=
  fun w =>
    let o := m w in
    let c := cleanup (final o) in
    mkOutcome (res o) (final c) (events o ++ events c).

Definition emit (e : Event) : M unit :=
  fun w => mkOutcome (Ok tt) w [e].

Definition modify (f : World -> World) : M unit :=
  fun w => mkOutcome (Ok tt) (f w) [].

Definition gets {A} (f : World -> A) : M A :=
  fun w => mkOutcome (Ok (f w)) w [].

Notation "x <- m ;; k" := (bind m (fun x => k))
  (at level 61, m at next level, right associativity).
Notation "m ;;; k" := (bind m (fun _ => k))
  (at level 61, right associativity).

Definition when (b : bool) (m : M unit) : M unit :=
  if b then m else ret tt.

(** ** Constructors and methods of the collaborators *)

(** [ImageWriter(output_dir)] *)
Definition new_ImageWriter (outdir : string) : M ImageWriter :=
  let iw := mkImageWriter outdir in
  emit (EvNewImageWriter iw) ;;; ret iw.

(** [PDFResourceManager(caching=...)]; [None] is a call without the
    argument, which takes the class's default. *)
Definition PDFResourceManager (caching : option bool) : M RsrcMgr :=
  let rm := mkRsrcMgr match caching with
                      | Some c => c
                      | None => rsrcmgr_caching_default P
                      end in
  emit (EvNewResourceManager rm) ;;; ret rm.

(** A converter or extractor class applied to its arguments. *)
Definition construct (d : Device) : M Device :=
  emit (EvNewDevice d) ;;; ret d.

(** [PDFPageInterpreter(rsrcmgr, device)] *)
Definition PDFPageInterpreter (rsrcmgr : RsrcMgr) (device : Device)
  : M Interpreter :=
  let i := mkInterpreter rsrcmgr device in
  emit (EvNewInterpreter i) ;;; ret i.

(** [PDFPage.get_pages(...)]: the call only builds the generator. *)
Definition PDFPage_get_pages (args : GetPagesArgs) : M PageSeq :=
  emit (EvGetPages args) ;;; ret (get_pages P args).

(** [interpreter.process_page(page)]: the interpreter reads the Page
    object, the device writes to its sink. *)
Definition process_page (i : Interpreter) (page : loc) : M unit :=
  p <- gets (fun w => pages w page) ;;
  emit (EvProcessPage (interp_device i) page p) ;;;
  modify (fun w => append_sink w (device_outfp (interp_device i))
                     (fst (render P (interp_device i) p))) ;;;
  match snd (render P (interp_device i) p) with
  | None => ret tt
  | Some e => raise (Propagated e)
  end.

(** [device.close()] *)
Definition device_close (d : Device) : M unit :=
  emit (EvDeviceClose d) ;;;
  modify (fun w => append_sink w (device_outfp d) (close_flush P d)).

(** [StringIO()] *)
Definition StringIO : M SinkId :=
  o <- gets next_sink ;;
  modify alloc_sink ;;;
  emit (EvNewStringIO o) ;;;
  ret o.

(** [output_string.getvalue()] *)
Definition getvalue (o : SinkId) : M string :=
  closed <- gets (fun w => sink_closed w o) ;;
  if (closed : bool) then raise (ValueError "I/O operation on closed file")
  else gets (fun w => sink_text w o).

(** [open(pdf_file, "rb")] *)
Definition open_rb (path : string) : M Stream :=
  match fs_open P path with
  | inl e => raise (Propagated e)
  | inr fp => emit (EvOpenFile path fp) ;;; ret fp
  end.

(** [for page in gen: body(page)] *)
Fixpoint for_each_page (body : loc -> M unit) (gen : PageSeq) : M unit :=
  match gen with
  | Stop => ret tt
  | Fail e => raise (Propagated e)
  | Yield page rest => body page ;;; for_each_page body rest
  end.

(** ** Entry point A: [extract_text_to_fp]

    The keyword parameters of the function, under their Python names. *)
Record FpArgs := mkFpArgs {
  output_type : string;
  codec : string;
  laparams : option LAParams;
  maxpages : Z;
  page_numbers : option (list nat);
  password : string;
  scale : Q;
  rotation : Z;
  layoutmode : string;
  output_dir : option string;
  strip_control : bool;
  debug : bool;
  disable_caching : bool;
  kwargs : Kwargs
}.

Definition deprecation_message : string :=
  String.append
    "The `_py2_no_more_posargs will be removed on January, 2020. At "
  (String.append
    "that moment pdfminer.six will stop supporting Python 2. Please "
  (String.append
    "upgrade to Python 3. For more information see "
    "https://github.com/pdfminer/pdfminer .six/issues/194")).

(** Line 54: ['_py2_no_more_posargs' in kwargs is not None].  Python chains
    the two comparisons: [a in b is not c] is [(a in b) and (b is not c)]. *)
Definition legacy_sentinel (kw : Kwargs) : bool :=
  dict_contains "_py2_no_more_posargs" kw && is_not_None (ObjDict kw).

(** Lines 64-65: under Python 2 the password is decoded with the encoding
    of standard input, when there is one. *)
Definition decoded_password (pw : string) : string :=
  match stdin_encoding P with
  | Some enc => if six_PY2 P && truthy_str enc then str_decode P pw enc
                else pw
  | None => pw
  end.

(** Lines 98-99: the body of the page loop of [extract_text_to_fp]. *)
Definition rotate_and_process (i : Interpreter) (rot : Z) (page : loc)
  : M unit :=
  r <- gets (fun w => rotate (pages w page)) ;;
  modify (fun w => set_page w page
                     (set_rotate (pages w page) (py_mod (r + rot) 360))) ;;;
  process_page i page.

Definition extract_text_to_fp (inf : Stream) (outfp : SinkId) (a : FpArgs)
  : M unit :=
  if legacy_sentinel (kwargs a)
  then raise (DeprecationWarning deprecation_message)
  else
    when (debug a) (emit EvSetLogLevelDebug) ;;;
    let password := decoded_password (password a) in
    imagewriter <-
      match output_dir a with
      | Some dir =>
          if truthy_str dir
          then (iw <- new_ImageWriter dir ;; ret (Some iw))
          else ret None
      | None => ret None
      end ;;
    rsrcmgr <- PDFResourceManager (Some (negb (disable_caching a))) ;;
    device <-
      (if String.eqb (output_type a) "text"
       then (d <- construct (TextConverter rsrcmgr outfp (codec a)
                               (laparams a) imagewriter) ;;
             ret (Some d))
       else ret None) ;;
    let outfp := if six_PY3 P && Nat.eqb outfp (sys_stdout P)
                 then sys_stdout_buffer P else outfp in
    device <-
      (if String.eqb (output_type a) "xml"
       then (d <- construct (XMLConverter rsrcmgr outfp (codec a)
                               (laparams a) imagewriter (strip_control a)) ;;
             ret (Some d))
       else if String.eqb (output_type a) "html"
       then (d <- construct (HTMLConverter rsrcmgr outfp (codec a)
                               (scale a) (layoutmode a) (laparams a)
                               imagewriter) ;;
             ret (Some d))
       else if String.eqb (output_type a) "tag"
       then (d <- construct (TagExtractor rsrcmgr outfp (codec a)) ;;
             ret (Some d))
       else ret device) ;;
    match device with
    | None => raise (UnboundLocalError "device")
    | Some device =>
        interpreter <- PDFPageInterpreter rsrcmgr device ;;
        gen <- PDFPage_get_pages
                 (mkGetPagesArgs inf (page_numbers a) (maxpages a) password
                    (negb (disable_caching a)) true) ;;
        for_each_page (rotate_and_process interpreter (rotation a)) gen ;;;
        device_close device
    end.

(** ** Entry point B: [extract_text] *)

Definition close_StringIO (o : SinkId) : M unit :=
  emit (EvCloseSink o) ;;; modify (fun w => close_sink w o).

Definition close_file (fp : Stream) : M unit :=
  emit (EvCloseFile fp).

Definition extract_text (pdf_file password : string)
  (page_numbers : option (list nat)) (maxpages : Z) (caching : bool)
  (codec : string) (laparams : option LAParams) : M string :=
  let laparams := match laparams with
                  | None => LAParams_default P
                  | Some la => la
                  end in
  fp <- open_rb pdf_file ;;
  finally
    (output_string <- StringIO ;;
     finally
       (rsrcmgr <- PDFResourceManager None ;;
        device <- construct (TextConverter rsrcmgr output_string codec
                               (Some laparams)
                               (converter_imagewriter_default P)) ;;
        interpreter <- PDFPageInterpreter rsrcmgr device ;;
        gen <- PDFPage_get_pages
                 (mkGetPagesArgs fp page_numbers maxpages password caching
                    true) ;;
        for_each_page (process_page interpreter) gen ;;;
        getvalue output_string)
       (close_StringIO output_string))
    (close_file fp).

End Orchestrator.

Arguments Ok {A} a.
Arguments Raise {A} e.
Arguments mkOutcome {LAParams A} res final events.
Arguments res {LAParams A} o.
Arguments final {LAParams A} o.
Arguments events {LAParams A} o.
Arguments EvSetLogLevelDebug {LAParams}.
Arguments EvNewImageWriter {LAParams} iw.
Arguments EvNewResourceManager {LAParams} rm.
Arguments EvNewDevice {LAParams} d.
Arguments EvNewInterpreter {LAParams} i.
Arguments EvGetPages {LAParams} args.
Arguments EvProcessPage {LAParams} d l p.
Arguments EvDeviceClose {LAParams} d.
Arguments EvOpenFile {LAParams} path fp.
Arguments EvCloseFile {LAParams} fp.
Arguments EvNewStringIO {LAParams} o.
Arguments EvCloseSink {LAParams} o.
Arguments TextConverter {LAParams} rsrcmgr outfp codec laparams imagewriter.
Arguments XMLConverter {LAParams} rsrcmgr outfp codec laparams imagewriter
  stripcontrol.
Arguments HTMLConverter {LAParams} rsrcmgr outfp codec scale layoutmode
  laparams imagewriter.
Arguments TagExtractor {LAParams} rsrcmgr outfp codec.
Arguments mkInterpreter {LAParams} interp_rsrcmgr interp_device.
Arguments device_outfp {LAParams} d.
Arguments interp_rsrcmgr {LAParams} i.
Arguments interp_device {LAParams} i.
Arguments six_PY2 {LAParams} p.
Arguments six_PY3 {LAParams} p.
Arguments stdin_encoding {LAParams} p.
Arguments str_decode {LAParams} p.
Arguments sys_stdout {LAParams} p.
Arguments sys_stdout_buffer {LAParams} p.
Arguments fs_open {LAParams} p.
Arguments rsrcmgr_caching_default {LAParams} p.
Arguments converter_imagewriter_default {LAParams} p.
Arguments LAParams_default {LAParams} p.
Arguments get_pages {LAParams} p.
Arguments render {LAParams} p.
Arguments close_flush {LAParams} p.
Arguments output_type {LAParams} f.
Arguments codec {LAParams} f.
Arguments laparams {LAParams} f.
Arguments maxpages {LAParams} f.
Arguments page_numbers {LAParams} f.
Arguments password {LAParams} f.
Arguments scale {LAParams} f.
Arguments rotation {LAParams} f.
Arguments layoutmode {LAParams} f.
Arguments output_dir {LAParams} f.
Arguments strip_control {LAParams} f.
Arguments debug {LAParams} f.
Arguments disable_caching {LAParams} f.
Arguments kwargs {LAParams} f.
Arguments mkFpArgs {LAParams}.
Arguments decoded_password {LAParams} P pw.
Arguments process_page {LAParams} P i page.
Arguments rotate_and_process {LAParams} P i rot page.
Arguments for_each_page {LAParams} body gen.
Arguments extract_text_to_fp {LAParams} P inf outfp a.
Arguments extract_text {LAParams} P pdf_file password page_numbers maxpages
  caching codec laparams.

(** ** Reading a trace *)

Section Observations.

Context {LAParams : Type}.

(** How many times [close] was called on a device. *)
Fixpoint closes (evs : list (Event LAParams)) : nat :=
  match evs with
  | [] => O
  | EvDeviceClose _ :: rest => S (closes rest)
  | _ :: rest => closes rest
  end.

(** The pages handed to [process_page], each as the interpreter read it. *)
Fixpoint processed (evs : list (Event LAParams)) : list (loc * Page) :=
  match evs with
  | [] => []
  | EvProcessPage _ l p :: rest => (l, p) :: processed rest
  | _ :: rest => processed rest
  end.



(** The caching flags of the Resource Managers built, and those passed to
    [get_pages]. *)
Fixpoint rsrcmgr_flags (evs : list (Event LAParams)) : list bool :=
  match evs with
  | [] => []
  | EvNewResourceManager rm :: rest => rm_caching rm :: rsrcmgr_flags rest
  | _ :: rest => rsrcmgr_flags rest
  end.

Fixpoint get_pages_flags (evs : list (Event LAParams)) : list bool :=
  match evs with
  | [] => []
  | EvGetPages args :: rest => gp_caching args :: get_pages_flags rest
  | _ :: rest => get_pages_flags rest
  end.

Definition is_process_page (e : Event LAParams) : Prop :=
  match e with
  | EvProcessPage _ _ _ => True
  | _ => False
  end.

(** ** The run of [extract_text_to_fp], piece by piece *)

Variable P : Platform LAParams.


(** The image writer bound at line 69. *)
Definition imagewriter_of (a : FpArgs LAParams) : option ImageWriter :=
  match output_dir a with
  | Some dir => if truthy_str dir then Some (mkImageWriter dir) else None
  | None => None
  end.

(** The sink the XML, HTML and tag devices receive (line 78). *)
Definition rebound_outfp (outfp : SinkId) : SinkId :=
  if six_PY3 P && Nat.eqb outfp (sys_stdout P) then sys_stdout_buffer P
  else outfp.

(** The device bound when line 91 is reached, if any. *)
Definition device_of (outfp : SinkId) (a : FpArgs LAParams)
  : option (Device LAParams) :=
  let rm := mkRsrcMgr (negb (disable_caching a)) in
  if String.eqb (output_type a) "xml"
  then Some (XMLConverter rm (rebound_outfp outfp) (codec a) (laparams a)
               (imagewriter_of a) (strip_control a))
  else if String.eqb (output_type a) "html"
  then Some (HTMLConverter rm (rebound_outfp outfp) (codec a) (scale a)
               (layoutmode a) (laparams a) (imagewriter_of a))
  else if String.eqb (output_type a) "tag"
  then Some (TagExtractor rm (rebound_outfp outfp) (codec a))
  else if String.eqb (output_type a) "text"
  then Some (TextConverter rm outfp (codec a) (laparams a)
               (imagewriter_of a))
  else None.

(** The events of lines 61-71. *)
Definition setup_events (a : FpArgs LAParams) : list (Event LAParams) :=
  (if debug a then [EvSetLogLevelDebug] else [])
  ++ match imagewriter_of a with
     | Some iw => [EvNewImageWriter iw]
     | None => []
     end
  ++ [EvNewResourceManager (mkRsrcMgr (negb (disable_caching a)))].

(** The arguments of the [get_pages] call of lines 92-97. *)
Definition fp_get_pages_args (inf : Stream) (a : FpArgs LAParams)
  : GetPagesArgs :=
  mkGetPagesArgs inf (page_numbers a) (maxpages a)
    (decoded_password P (password a)) (negb (disable_caching a)) true.

(** Every listed Page object has a rotation between 0 and 359. *)
Definition rotations_in_range (w : World) (ls : list loc) : bool :=
  forallb (fun l => (0 <=? rotate (pages w l)) && (rotate (pages w l) <? 360))
    ls.

(** The Page object the interpreter reads once the delta is applied. *)
Definition rotated (d : Z) (p : Page) : Page :=
  set_rotate p (py_mod (rotate p + d) 360).

(** ** The run of [extract_text], piece by piece *)

(** The device built at lines 124-125 on the sink [o]. *)
Definition text_device (o : SinkId) (cd : string) (la : option LAParams)
  : Device LAParams :=
  TextConverter (mkRsrcMgr (rsrcmgr_caching_default P)) o cd
    (Some match la with
          | None => LAParams_default P
          | Some x => x
          end)
    (converter_imagewriter_default P).

Definition text_interpreter (o : SinkId) (cd : string)
  (la : option LAParams) : Interpreter LAParams :=
  mkInterpreter (mkRsrcMgr (rsrcmgr_caching_default P))
    (text_device o cd la).

(** The call [extract_text_to_fp(fp, sink, output_type='text', codec=cd,
    laparams=LAParams(), maxpages=mp, page_numbers=pn, password=pw)], the
    other parameters at their defaults. *)
Definition text_variant_args (cd : string) (mp : Z)
  (pn : option (list nat)) (pw : string) : FpArgs LAParams :=
  mkFpArgs "text" cd (Some (LAParams_default P)) mp pn pw 1%Q 0 "normal"
    None false false false [].


End Observations.

(** [a] with other Layout Parameters. *)
Definition with_laparams {LAParams} (a : FpArgs LAParams)
  (la : option LAParams) : FpArgs LAParams :=
  mkFpArgs (output_type a) (codec a) la (maxpages a) (page_numbers a)
    (password a) (scale a) (rotation a) (layoutmode a) (output_dir a)
    (strip_control a) (debug a) (disable_caching a) (kwargs a).

(** The defaults of the signature of [extract_text_to_fp]. *)
Definition fp_defaults {LAParams} : FpArgs LAParams :=
  mkFpArgs "text" "utf-8" None 0 None "" 1%Q 0 "normal" None false false
    false [].

(** ** A small platform to run the entry points on

    Layout Parameters are numbers.  The file system holds two documents of
    two pages each: [plain.pdf] (stream 0) and [locked.pdf] (stream 1),
    which is encrypted with the password [secret].  Text devices write the
    contents of a page, the others wrap it in a tag; an XML device writes a
    footer when it is closed. *)
Module Demo.

Definition page_heap (l : loc) : Page :=
  match l with
  | O => mkPage 0 0 "alpha "
  | S O => mkPage 1 270 "beta "
  | S (S n) => mkPage l 0 ""
  end.

Definition document (args : GetPagesArgs) : PageSeq :=
  match gp_fp args with
  | O => Yield 0%nat (Yield 1%nat Stop)
  | _ => if String.eqb (gp_password args) "secret"
         then Yield 0%nat (Yield 1%nat Stop)
         else Fail DecryptionError
  end.

Definition open_file (path : string) : CollabError + Stream :=
  if String.eqb path "plain.pdf" then inr 0%nat
  else if String.eqb path "locked.pdf" then inr 1%nat
  else inl IOError.

Definition device_text (d : Device nat) (p : Page)
  : string * option CollabError :=
  match d with
  | TextConverter _ _ _ _ _ => (contents p, None)
  | _ => (String.append "<" (String.append (contents p) ">"), None)
  end.

Definition device_footer (d : Device nat) : string :=
  match d with
  | XMLConverter _ _ _ _ _ _ => "</pages>"
  | _ => EmptyString
  end.

Definition platform : Platform nat :=
  {| six_PY2 := false;
     six_PY3 := true;
     stdin_encoding := Some "utf-8"%string;
     str_decode := fun s _ => s;
     sys_stdout := 0%nat;
     sys_stdout_buffer := 1%nat;
     fs_open := open_file;
     rsrcmgr_caching_default := true;
     converter_imagewriter_default := None;
     LAParams_default := 0%nat;
     get_pages := document;
     render := device_text;
     close_flush := device_footer |}.

(** The same platform with a Document Source that yields one Page object
    twice. *)
Definition platform_aliased : Platform nat :=
  {| six_PY2 := false;
     six_PY3 := true;
     stdin_encoding := Some "utf-8"%string;
     str_decode := fun s _ => s;
     sys_stdout := 0%nat;
     sys_stdout_buffer := 1%nat;
     fs_open := open_file;
     rsrcmgr_caching_default := true;
     converter_imagewriter_default := None;
     LAParams_default := 0%nat;
     get_pages := fun _ => Yield 0%nat (Yield 0%nat Stop);
     render := device_text;
     close_flush := device_footer |}.

(** Nothing written yet; sinks 0 and 1 are the standard output and its
    buffer, sink 2 is the caller's. *)
Definition world : World :=
  {| pages := page_heap;
     sink_text := fun _ => EmptyString;
     sink_closed := fun _ => false;
     next_sink := 3%nat |}.


(** [extract_text_to_fp(inf, outfp, rotation=90)] *)
Definition args_rot90 : FpArgs nat :=
  mkFpArgs "text" "utf-8" None 0 None "" 1%Q 90 "normal" None false false
    false [].

(** [extract_text_to_fp(inf, outfp, rotation=-100, output_type='xml')] *)
Definition args_xml : FpArgs nat :=
  mkFpArgs "xml" "utf-8" None 0 None "" 1%Q (-100) "normal" None false false
    false [].

(** [extract_text_to_fp(inf, outfp, output_type='tag', laparams=la)] *)
Definition args_tag (la : option nat) : FpArgs nat :=
  mkFpArgs "tag" "utf-8" la 0 None "" 1%Q 0 "normal" None false false
    false [].

(** [extract_text_to_fp(inf, outfp, debug=True, _py2_no_more_posargs=None)] *)
Definition args_legacy : FpArgs nat :=
  mkFpArgs "text" "utf-8" None 0 None "" 1%Q 0 "normal" None false true
    false [("_py2_no_more_posargs"%string, PyNone)].


(** [extract_text_to_fp(inf, outfp, codec=c, laparams=LAParams())] *)
Definition args_text (c : string) : FpArgs nat :=
  mkFpArgs "text" c (Some 0%nat) 0 None "" 1%Q 0 "normal" None false false
    false [].

End Demo.

(** ** The claims of the specification, as predicates on a run *)

Section Claimed.

Context {LAParams : Type}.


(** No Resource Manager was built with a flag other than the one the
    Document Source was given. *)
Definition caching_flags_agree (evs : list (Event LAParams)) : Prop :=
  forall c1 c2,
    In c1 (rsrcmgr_flags evs) -> In c2 (get_pages_flags evs) -> c1 = c2.

(** The device was closed exactly once. *)
Definition closed_exactly_once (evs : list (Event LAParams)) : Prop :=
  closes evs = 1%nat.

(** Every Page object has the rotation it had before the run. *)
Definition keeps_intrinsic_rotation (before after : World) : Prop :=
  forall l, rotate (pages after l) = rotate (pages before l).

End Claimed.

(** ** More readings of a trace, and a reference for the page loop *)

Section Reference.

Context {LAParams : Type}.

(** The Output Devices, Page Interpreters and image writers built, and the
    arguments of the calls of [get_pages], in order. *)
Fixpoint devices_built (evs : list (Event LAParams))
  : list (Device LAParams) :=
  match evs with
  | [] => []
  | EvNewDevice d :: rest => d :: devices_built rest
  | _ :: rest => devices_built rest
  end.

Fixpoint interpreters_built (evs : list (Event LAParams))
  : list (Interpreter LAParams) :=
  match evs with
  | [] => []
  | EvNewInterpreter i :: rest => i :: interpreters_built rest
  | _ :: rest => interpreters_built rest
  end.

Fixpoint image_writers_built (evs : list (Event LAParams))
  : list ImageWriter :=
  match evs with
  | [] => []
  | EvNewImageWriter iw :: rest => iw :: image_writers_built rest
  | _ :: rest => image_writers_built rest
  end.

Fixpoint get_pages_calls (evs : list (Event LAParams))
  : list GetPagesArgs :=
  match evs with
  | [] => []
  | EvGetPages args :: rest => args :: get_pages_calls rest
  | _ :: rest => get_pages_calls rest
  end.

(** A call that closes a sink, a file or a device. *)
Definition is_release (e : Event LAParams) : bool :=
  match e with
  | EvDeviceClose _ => true
  | EvCloseFile _ => true
  | EvCloseSink _ => true
  | _ => false
  end.

Variable P : Platform LAParams.

(** Interpreting the pages of a generator one after the other on a device,
    read off a heap that does not change: the text written, and the
    exception that stopped the interpretation, if any.  The text of a page
    that raises is what the device wrote before the exception. *)
Fixpoint interpret_all (d : Device LAParams) (heap : loc -> Page)
  (gen : PageSeq) : string * option CollabError :=
  match gen with
  | Stop => (EmptyString, None)
  | Fail e => (EmptyString, Some e)
  | Yield l rest =>
      match snd (render P d (heap l)) with
      | Some e => (fst (render P d (heap l)), Some e)
      | None =>
          (String.append (fst (render P d (heap l)))
             (fst (interpret_all d heap rest)),
           snd (interpret_all d heap rest))
      end
  end.

(** How a run ends when the interpretation ended with [err]. *)
Definition result_of (err : option CollabError) : Result unit :=
  match err with
  | None => Ok tt
  | Some e => Raise (Propagated e)
  end.

End Reference.

(** [a] with another value of one keyword parameter. *)
Definition with_debug {LAParams} (a : FpArgs LAParams) (b : bool)
  : FpArgs LAParams :=
  mkFpArgs (output_type a) (codec a) (laparams a) (maxpages a)
    (page_numbers a) (password a) (scale a) (rotation a) (layoutmode a)
    (output_dir a) (strip_control a) b (disable_caching a) (kwargs a).

Definition with_kwargs {LAParams} (a : FpArgs LAParams) (kw : Kwargs)
  : FpArgs LAParams :=
  mkFpArgs (output_type a) (codec a) (laparams a) (maxpages a)
    (page_numbers a) (password a) (scale a) (rotation a) (layoutmode a)
    (output_dir a) (strip_control a) (debug a) (disable_caching a) kw.

Definition with_output_dir {LAParams} (a : FpArgs LAParams)
  (dir : option string) : FpArgs LAParams :=
  mkFpArgs (output_type a) (codec a) (laparams a) (maxpages a)
    (page_numbers a) (password a) (scale a) (rotation a) (layoutmode a)
    dir (strip_control a) (debug a) (disable_caching a) (kwargs a).

Definition with_rotation {LAParams} (a : FpArgs LAParams) (r : Z)
  : FpArgs LAParams :=
  mkFpArgs (output_type a) (codec a) (laparams a) (maxpages a)
    (page_numbers a) (password a) (scale a) r (layoutmode a)
    (output_dir a) (strip_control a) (debug a) (disable_caching a)
    (kwargs a).

(** ** A platform whose interpreter fails

    The platform of [Demo], except that interpreting the second page
    raises after the device has written a marker. *)
Module Faulty.

Definition device_text (d : Device nat) (p : Page)
  : string * option CollabError :=
  match pageid p with
  | S O => ("?"%string, Some InterpretError)
  | _ => Demo.device_text d p
  end.

Definition platform : Platform nat :=
  {| six_PY2 := false;
     six_PY3 := true;
     stdin_encoding := Some "utf-8"%string;
     str_decode := fun s _ => s;
     sys_stdout := 0%nat;
     sys_stdout_buffer := 1%nat;
     fs_open := Demo.open_file;
     rsrcmgr_caching_default := true;
     converter_imagewriter_default := None;
     LAParams_default := 0%nat;
     get_pages := fun _ => Yield 0%nat (Yield 1%nat (Yield 2%nat Stop));
     render := device_text;
     close_flush := Demo.device_footer |}.

(** [extract_text_to_fp(inf, sys.stdout, output_type='xml',
    output_dir='img', debug=True, color='red')] *)
Definition args_stdout_xml : FpArgs nat :=
  mkFpArgs "xml" "utf-8" None 0 None "" 1%Q 0 "normal" (Some "img"%string)
    false true false [("color"%string, PyStr "red")].

End Faulty.

(** * Properties *)

(** Case analysis on the outcome of the page loop in the goal. *)
Ltac case_loop :=
  match goal with
  | |- context [for_each_page ?b ?g ?w0] =>
      destruct (for_each_page b g w0) as [[[]|?] ? ?]
  end.

Section RunLemmas.

Context {LAParams : Type}.
Variable P : Platform LAParams.

Lemma extract_text_to_fp_legacy inf outfp (a : FpArgs LAParams) w :
  legacy_sentinel (kwargs a) = true ->
  extract_text_to_fp P inf outfp a w
  = mkOutcome (Raise (DeprecationWarning deprecation_message)) w [].
Proof.
  intros H. unfold extract_text_to_fp. rewrite H. reflexivity.
Qed.

(** The run of [extract_text_to_fp] once the legacy keyword is out of the
    way: the set-up, then either no device is bound, or the page loop runs
    and the device is closed if the loop ends normally. *)
Lemma extract_text_to_fp_run inf outfp (a : FpArgs LAParams) w :
  legacy_sentinel (kwargs a) = false ->
  extract_text_to_fp P inf outfp a w
  = match device_of P outfp a with
    | None =>
        mkOutcome (Raise (UnboundLocalError "device")) w (setup_events a)
    | Some d =>
        let i := mkInterpreter (mkRsrcMgr (negb (disable_caching a))) d in
        let lo := for_each_page (rotate_and_process P i (rotation a))
                    (get_pages P (fp_get_pages_args P inf a)) w in
        let pre := setup_events a
                   ++ [EvNewDevice d; EvNewInterpreter i;
                       EvGetPages (fp_get_pages_args P inf a)] in
        match res lo with
        | Ok _ =>
            mkOutcome (Ok tt)
              (append_sink (final lo) (device_outfp d) (close_flush P d))
              (pre ++ events lo ++ [EvDeviceClose d])
        | Raise e => mkOutcome (Raise e) (final lo) (pre ++ events lo)
        end
    end.
Proof.
  intros H. unfold extract_text_to_fp. rewrite H.
  destruct a as [ot cd la mp pn pw sc rot lm od stc dbg dc kw].
  unfold device_of, setup_events, imagewriter_of, fp_get_pages_args,
    rebound_outfp.
  cbn [output_type codec laparams maxpages page_numbers password scale
       rotation layoutmode output_dir strip_control debug disable_caching
       kwargs].
  destruct (String.eqb ot "text") eqn:Et.
  - apply String.eqb_eq in Et. subst ot.
    destruct dbg; destruct od as [dir|]; try destruct (truthy_str dir);
      cbv [when bind ret emit modify gets raise new_ImageWriter construct
           PDFResourceManager PDFPageInterpreter PDFPage_get_pages
           device_close res final events String.eqb Ascii.eqb Bool.eqb app];
      fold (@app (Event LAParams));
      case_loop; cbn; rewrite ?app_nil_r; reflexivity.
  - destruct (String.eqb ot "xml") eqn:Ex;
      [| destruct (String.eqb ot "html") eqn:Eh;
         [| destruct (String.eqb ot "tag") eqn:Eg ] ];
      destruct dbg; destruct od as [dir|]; try destruct (truthy_str dir);
      cbv [when bind ret emit modify gets raise new_ImageWriter construct
           PDFResourceManager PDFPageInterpreter PDFPage_get_pages
           device_close res final events app];
      fold (@app (Event LAParams));
      try reflexivity;
      case_loop; cbn; rewrite ?app_nil_r; reflexivity.
Qed.

(** The run of [extract_text]: the file is opened, a sink allocated, the
    pages interpreted, the value of the sink read, and then the sink and
    the file are closed, whatever happened in between. *)
Lemma extract_text_run path pw pn mp caching cd (la : option LAParams) w :
  extract_text P path pw pn mp caching cd la w
  = match fs_open P path with
    | inl e => mkOutcome (Raise (Propagated e)) w []
    | inr fp =>
        let o := next_sink w in
        let i := text_interpreter P o cd la in
        let args := mkGetPagesArgs fp pn mp pw caching true in
        let lo := for_each_page (process_page P i) (get_pages P args)
                    (alloc_sink w) in
        mkOutcome
          match res lo with
          | Ok _ =>
              if sink_closed (final lo) o
              then Raise (ValueError "I/O operation on closed file")
              else Ok (sink_text (final lo) o)
          | Raise e => Raise e
          end
          (close_sink (final lo) o)
          ([EvOpenFile path fp; EvNewStringIO o;
            EvNewResourceManager (mkRsrcMgr (rsrcmgr_caching_default P));
            EvNewDevice (text_device P o cd la); EvNewInterpreter i;
            EvGetPages args]
           ++ events lo ++ [EvCloseSink o; EvCloseFile fp])
    end.
Proof.
  unfold extract_text, open_rb, text_interpreter, text_device.
  destruct (fs_open P path) as [e|fp]; [reflexivity|].
  cbv [finally bind ret emit modify gets raise construct StringIO getvalue
       PDFResourceManager PDFPageInterpreter PDFPage_get_pages
       close_StringIO close_file res final events app].
  fold (@app (Event LAParams)).
  case_loop; cbn.
  - match goal with
    | |- context [if ?c then _ else _] => destruct c
    end; cbn;
      rewrite ?app_nil_r, <- ?app_assoc; reflexivity.
  - rewrite ?app_nil_r, <- ?app_assoc; reflexivity.
Qed.

(** *** One iteration *)

Lemma process_page_run (i : Interpreter LAParams) l w :
  process_page P i l w
  = mkOutcome
      match snd (render P (interp_device i) (pages w l)) with
      | None => Ok tt
      | Some e => Raise (Propagated e)
      end
      (append_sink w (device_outfp (interp_device i))
         (fst (render P (interp_device i) (pages w l))))
      [EvProcessPage (interp_device i) l (pages w l)].
Proof.
  unfold process_page.
  cbv [bind ret emit modify gets raise res final events app].
  cbn [pages append_sink].
  destruct (snd (render P (interp_device i) (pages w l))); reflexivity.
Qed.

Lemma rotate_and_process_run (i : Interpreter LAParams) d l w :
  rotate_and_process P i d l w
  = process_page P i l (set_page w l (rotated d (pages w l))).
Proof.
  unfold rotate_and_process, rotated.
  cbv [bind ret emit modify gets raise res final events app].
  destruct (process_page P i l _) as [[[]|e] fw evs]; reflexivity.
Qed.

Lemma for_each_page_yield (body : loc -> M LAParams unit) l rest w :
  for_each_page body (Yield l rest) w
  = match res (body l w) with
    | Ok _ =>
        let lo := for_each_page body rest (final (body l w)) in
        mkOutcome (res lo) (final lo) (events (body l w) ++ events lo)
    | Raise e => mkOutcome (Raise e) (final (body l w)) (events (body l w))
    end.
Proof.
  cbn [for_each_page]. unfold bind.
  destruct (res (body l w)) as [[]|e]; reflexivity.
Qed.

End RunLemmas.

(** ** The page loop *)

Section LoopLemmas.

Context {LAParams : Type}.
Variable P : Platform LAParams.

Lemma processed_app (evs1 evs2 : list (Event LAParams)) :
  processed (evs1 ++ evs2) = (processed evs1 ++ processed evs2)%list.
Proof.
  induction evs1 as [|e evs1 IH]; [reflexivity|].
  destruct e; cbn; rewrite ?IH; reflexivity.
Qed.

Lemma closes_app (evs1 evs2 : list (Event LAParams)) :
  closes (evs1 ++ evs2) = (closes evs1 + closes evs2)%nat.
Proof.
  induction evs1 as [|e evs1 IH]; [reflexivity|].
  destruct e; cbn; rewrite ?IH; reflexivity.
Qed.

Lemma closes_process_pages (evs : list (Event LAParams)) :
  Forall is_process_page evs -> closes evs = 0%nat.
Proof.
  induction 1 as [|e evs He _ IH]; [reflexivity|].
  destruct e; cbn in He; try contradiction. exact IH.
Qed.

Lemma processed_only_process_pages (evs : list (Event LAParams)) :
  (forall e, In e evs -> is_process_page e -> False) -> processed evs = [].
Proof.
  induction evs as [|e evs IH]; intros H; [reflexivity|].
  destruct e; cbn;
    try (apply IH; intros e' He'; apply H; right; exact He').
  exfalso. apply (H _ (or_introl eq_refl)). exact I.
Qed.

Lemma distinct_cons l rest :
  distinct (l :: rest) = true -> ~ In l rest /\ distinct rest = true.
Proof.
  cbn. intros H. apply andb_true_iff in H. destruct H as [Hn Hd].
  split; [|exact Hd].
  intros Hin. apply negb_true_iff in Hn.
  assert (existsb (Nat.eqb l) rest = true) as Hex.
  { apply existsb_exists. exists l. split; [exact Hin|apply Nat.eqb_refl]. }
  congruence.
Qed.

(** *** Any loop whose body hands its page to the interpreter once *)

Section AnyBody.

Variable body : loc -> M LAParams unit.

Hypothesis body_events :
  forall l w, exists d p, events (body l w) = [EvProcessPage d l p].

Hypothesis body_res :
  forall l w, res (body l w) = Ok tt
              \/ exists e, res (body l w) = Raise (Propagated e).

Lemma for_each_page_events gen w :
  Forall is_process_page (events (for_each_page body gen w)).
Proof.
  revert w. induction gen as [|e|l rest IH]; intros w.
  - constructor.
  - constructor.
  - rewrite for_each_page_yield.
    destruct (body_events l w) as (d & p & Hev).
    destruct (res (body l w)) as [[]|e]; cbn; rewrite Hev.
    + constructor; [exact I|apply IH].
    + constructor; [exact I|constructor].
Qed.

Lemma for_each_page_res gen w :
  res (for_each_page body gen w) = Ok tt
  \/ exists e, res (for_each_page body gen w) = Raise (Propagated e).
Proof.
  revert w. induction gen as [|e|l rest IH]; intros w.
  - left. reflexivity.
  - right. exists e. reflexivity.
  - rewrite for_each_page_yield.
    destruct (body_res l w) as [Hr|(e & Hr)]; rewrite Hr; cbn.
    + apply IH.
    + right. exists e. reflexivity.
Qed.

(** The pages interpreted are the first pages yielded, in the order they
    were yielded, each once. *)
Lemma for_each_page_prefix gen w :
  exists later,
    yielded gen
    = (map fst (processed (events (for_each_page body gen w))) ++ later)%list.
Proof.
  revert w. induction gen as [|e|l rest IH]; intros w.
  - exists []. reflexivity.
  - exists []. reflexivity.
  - rewrite for_each_page_yield.
    destruct (body_events l w) as (d & p & Hev).
    destruct (res (body l w)) as [[]|e]; cbn; rewrite Hev; cbn.
    + destruct (IH (final (body l w))) as (later & Hl).
      exists later. rewrite Hl at 1. reflexivity.
    + exists (yielded rest). reflexivity.
Qed.

(** A loop that ends normally has interpreted every page yielded. *)
Lemma for_each_page_complete gen w :
  res (for_each_page body gen w) = Ok tt ->
  map fst (processed (events (for_each_page body gen w))) = yielded gen
  /\ ends_normally gen = true.
Proof.
  revert w. induction gen as [|e|l rest IH]; intros w.
  - intros _. split; reflexivity.
  - cbn. discriminate.
  - rewrite for_each_page_yield.
    destruct (body_events l w) as (d & p & Hev).
    destruct (res (body l w)) as [[]|e]; cbn; rewrite Hev; cbn.
    + intros Hr. destruct (IH _ Hr) as [Hm He].
      rewrite Hm. split; [reflexivity|exact He].
    + discriminate.
Qed.

Lemma for_each_page_processed_yielded gen w l :
  In l (map fst (processed (events (for_each_page body gen w)))) ->
  In l (yielded gen).
Proof.
  intros Hin. destruct (for_each_page_prefix gen w) as (later & Hl).
  rewrite Hl. apply in_or_app. left. exact Hin.
Qed.

End AnyBody.

(** *** The two bodies *)

Lemma process_page_events (i : Interpreter LAParams) l w :
  exists d p, events (process_page P i l w) = [EvProcessPage d l p].
Proof.
  rewrite process_page_run. eexists. eexists. reflexivity.
Qed.

Lemma process_page_res (i : Interpreter LAParams) l w :
  res (process_page P i l w) = Ok tt
  \/ exists e, res (process_page P i l w) = Raise (Propagated e).
Proof.
  rewrite process_page_run. cbn.
  destruct (snd (render P (interp_device i) (pages w l))) as [e|].
  - right. exists e. reflexivity.
  - left. reflexivity.
Qed.

Lemma rotate_and_process_events (i : Interpreter LAParams) d l w :
  exists d' p,
    events (rotate_and_process P i d l w) = [EvProcessPage d' l p].
Proof.
  rewrite rotate_and_process_run. apply process_page_events.
Qed.

Lemma rotate_and_process_res (i : Interpreter LAParams) d l w :
  res (rotate_and_process P i d l w) = Ok tt
  \/ exists e, res (rotate_and_process P i d l w) = Raise (Propagated e).
Proof.
  rewrite rotate_and_process_run. apply process_page_res.
Qed.

(** One iteration of the loop of [extract_text_to_fp] touches the Page
    object it is given and no other. *)
Lemma rotate_and_process_pages (i : Interpreter LAParams) d l w k :
  pages (final (rotate_and_process P i d l w)) k
  = if Nat.eqb k l then rotated d (pages w l) else pages w k.
Proof.
  rewrite rotate_and_process_run, process_page_run. reflexivity.
Qed.

Lemma rotate_and_process_processed (i : Interpreter LAParams) d l w :
  processed (events (rotate_and_process P i d l w))
  = [(l, rotated d (pages w l))].
Proof.
  rewrite rotate_and_process_run, process_page_run. cbn.
  rewrite Nat.eqb_refl. reflexivity.
Qed.

(** When the generator yields no Page object twice, each page reaches the
    interpreter with the delta applied once to the rotation it had before
    the run. *)
Lemma rotate_loop_processed (i : Interpreter LAParams) d gen :
  distinct (yielded gen) = true ->
  forall w l p,
    In (l, p)
      (processed (events (for_each_page (rotate_and_process P i d) gen w))) ->
    p = rotated d (pages w l).
Proof.
  induction gen as [|e|l0 rest IH]; intros Hd w l p.
  - cbn. contradiction.
  - cbn. contradiction.
  - cbn [yielded] in Hd. apply distinct_cons in Hd. destruct Hd as [Hn Hd].
    rewrite for_each_page_yield.
    destruct (res (rotate_and_process P i d l0 w)) as [[]|e]; cbn [events].
    + rewrite processed_app, rotate_and_process_processed.
      cbn [app In]. intros [Heq|Hin].
      * inversion Heq. reflexivity.
      * assert (In l (yielded rest)) as Hy.
        { apply (for_each_page_processed_yielded
                   (rotate_and_process P i d)
                   (rotate_and_process_events i d) rest
                   (final (rotate_and_process P i d l0 w))).
          apply in_map_iff. exists (l, p). split; [reflexivity|exact Hin]. }
        rewrite (IH Hd _ _ _ Hin), rotate_and_process_pages.
        destruct (Nat.eqb l l0) eqn:E; [|reflexivity].
        apply Nat.eqb_eq in E. subst l0. contradiction.
    + rewrite rotate_and_process_processed. cbn [In]. intros [Heq|[]].
      inversion Heq. reflexivity.
Qed.

(** After the loop, the Page objects that reached the interpreter carry
    the combined rotation, and the others are as they were. *)
Lemma rotate_loop_pages (i : Interpreter LAParams) d gen :
  distinct (yielded gen) = true ->
  forall w k,
    let lo := for_each_page (rotate_and_process P i d) gen w in
    (In k (map fst (processed (events lo))) ->
     pages (final lo) k = rotated d (pages w k))
    /\ (~ In k (map fst (processed (events lo))) ->
        pages (final lo) k = pages w k).
Proof.
  induction gen as [|e|l0 rest IH]; intros Hd w k.
  - cbn. split; [contradiction|reflexivity].
  - cbn. split; [contradiction|reflexivity].
  - cbn [yielded] in Hd. apply distinct_cons in Hd. destruct Hd as [Hn Hd].
    cbv zeta. rewrite for_each_page_yield.
    destruct (res (rotate_and_process P i d l0 w)) as [[]|e];
      cbn [events final].
    + rewrite processed_app, rotate_and_process_processed. cbn [map fst app].
      destruct (IH Hd (final (rotate_and_process P i d l0 w)) k)
        as [Hin Hout].
      cbv zeta in Hin, Hout.
      rewrite rotate_and_process_pages in Hin, Hout.
      split.
      * intros [Heq|Hk].
        -- subst k.
           rewrite Hout; [rewrite Nat.eqb_refl; reflexivity|].
           intros Hk. apply Hn.
           apply (for_each_page_processed_yielded
                    (rotate_and_process P i d)
                    (rotate_and_process_events i d) rest _ _ Hk).
        -- rewrite (Hin Hk).
           destruct (Nat.eqb k l0) eqn:E; [|reflexivity].
           apply Nat.eqb_eq in E. subst l0. exfalso. apply Hn.
           apply (for_each_page_processed_yielded
                    (rotate_and_process P i d)
                    (rotate_and_process_events i d) rest _ _ Hk).
      * intros Hk.
        rewrite Hout; [|intros Hk'; apply Hk; right; exact Hk'].
        destruct (Nat.eqb k l0) eqn:E; [|reflexivity].
        apply Nat.eqb_eq in E. subst l0. exfalso. apply Hk. left.
        reflexivity.
    + rewrite rotate_and_process_processed, rotate_and_process_pages.
      cbn [map fst]. split.
      * intros [Heq|[]]. subst k. rewrite Nat.eqb_refl. reflexivity.
      * intros Hk. destruct (Nat.eqb k l0) eqn:E; [|reflexivity].
        apply Nat.eqb_eq in E. subst l0. exfalso. apply Hk. left.
        reflexivity.
Qed.

End LoopLemmas.

(** ** The legacy keyword and the choice of a device *)

Section Preflight.

Context {LAParams : Type}.
Variable P : Platform LAParams.

Lemma dict_contains_In key (kw : Kwargs) :
  dict_contains key kw = true <-> exists v, In (key, v) kw.
Proof.
  unfold dict_contains. rewrite existsb_exists. split.
  - intros ([k v] & Hin & Hk). cbn in Hk. apply String.eqb_eq in Hk.
    subst k. exists v. exact Hin.
  - intros (v & Hin). exists (key, v). split; [exact Hin|].
    apply String.eqb_refl.
Qed.

(** The second comparison of the chain is always true: [kwargs] is a
    dictionary. *)
Lemma legacy_sentinel_dict_contains (kw : Kwargs) :
  legacy_sentinel kw = dict_contains "_py2_no_more_posargs" kw.
Proof.
  unfold legacy_sentinel. cbn. apply andb_true_r.
Qed.



Lemma processed_setup_events (a : FpArgs LAParams) :
  processed (setup_events a) = [].
Proof.
  unfold setup_events.
  destruct (debug a); destruct (imagewriter_of a); reflexivity.
Qed.



Lemma rsrcmgr_flags_setup_events (a : FpArgs LAParams) :
  rsrcmgr_flags (setup_events a) = [negb (disable_caching a)].
Proof.
  unfold setup_events.
  destruct (debug a); destruct (imagewriter_of a); reflexivity.
Qed.

Lemma get_pages_flags_setup_events (a : FpArgs LAParams) :
  get_pages_flags (setup_events a) = [].
Proof.
  unfold setup_events.
  destruct (debug a); destruct (imagewriter_of a); reflexivity.
Qed.

(** C10: a call of [extract_text_to_fp] that is given the keyword
    [_py2_no_more_posargs], whatever its value, raises DeprecationWarning
    with nothing done before: the log level is untouched even when [debug]
    is set, no collaborator is built and the world is unchanged.  A call
    without the keyword never ends with DeprecationWarning. *)
Theorem legacy_keyword_raises_first inf outfp (a : FpArgs LAParams) w :
  (forall v,
     In ("_py2_no_more_posargs"%string, v) (kwargs a) ->
     extract_text_to_fp P inf outfp a w
     = mkOutcome (Raise (DeprecationWarning deprecation_message)) w [])
  /\ ((forall v, ~ In ("_py2_no_more_posargs"%string, v) (kwargs a)) ->
      forall msg,
        res (extract_text_to_fp P inf outfp a w)
        <> Raise (DeprecationWarning msg)).
Proof.
  split.
  - intros v Hin. apply extract_text_to_fp_legacy.
    rewrite legacy_sentinel_dict_contains. apply dict_contains_In.
    exists v. exact Hin.
  - intros Hout msg.
    assert (legacy_sentinel (kwargs a) = false) as Hs.
    { rewrite legacy_sentinel_dict_contains.
      destruct (dict_contains "_py2_no_more_posargs" (kwargs a)) eqn:E;
        [|reflexivity].
      apply dict_contains_In in E. destruct E as (v & Hin).
      destruct (Hout v Hin). }
    rewrite (extract_text_to_fp_run P inf outfp a w Hs).
    destruct (device_of P outfp a) as [d|]; [|discriminate].
    cbv zeta.
    match goal with
    | |- context [for_each_page ?b ?g ?w0] =>
        destruct (for_each_page_res b
                    (rotate_and_process_res P _ (rotation a)) g w0)
          as [Hr|(e & Hr)]; rewrite Hr
    end; discriminate.
Qed.


(** C9: two runs of [extract_text_to_fp] with [output_type='tag'] that
    differ only in the Layout Parameters end the same way, with the same
    calls on collaborators and the same text in every sink. *)
Theorem tag_output_ignores_laparams inf outfp (a : FpArgs LAParams)
  (la1 la2 : option LAParams) w :
  output_type a = "tag"%string ->
  extract_text_to_fp P inf outfp (with_laparams a la1) w
  = extract_text_to_fp P inf outfp (with_laparams a la2) w
  /\ forall o,
       sink_text (final (extract_text_to_fp P inf outfp
                           (with_laparams a la1) w)) o
       = sink_text (final (extract_text_to_fp P inf outfp
                             (with_laparams a la2) w)) o.
Proof.
  intros Ht.
  assert (extract_text_to_fp P inf outfp (with_laparams a la1) w
          = extract_text_to_fp P inf outfp (with_laparams a la2) w) as E.
  { unfold extract_text_to_fp, with_laparams.
    cbn [output_type codec laparams maxpages page_numbers password scale
         rotation layoutmode output_dir strip_control debug disable_caching
         kwargs].
    rewrite Ht. reflexivity. }
  split; [exact E|]. intros o. rewrite E. reflexivity.
Qed.

End Preflight.

(** ** Caching flags, closing, rotation *)

Section Runs.

Context {LAParams : Type}.
Variable P : Platform LAParams.

Lemma rsrcmgr_flags_app (evs1 evs2 : list (Event LAParams)) :
  rsrcmgr_flags (evs1 ++ evs2)
  = (rsrcmgr_flags evs1 ++ rsrcmgr_flags evs2)%list.
Proof.
  induction evs1 as [|e evs1 IH]; [reflexivity|].
  destruct e; cbn; rewrite ?IH; reflexivity.
Qed.

Lemma get_pages_flags_app (evs1 evs2 : list (Event LAParams)) :
  get_pages_flags (evs1 ++ evs2)
  = (get_pages_flags evs1 ++ get_pages_flags evs2)%list.
Proof.
  induction evs1 as [|e evs1 IH]; [reflexivity|].
  destruct e; cbn; rewrite ?IH; reflexivity.
Qed.

Lemma flags_process_pages (evs : list (Event LAParams)) :
  Forall is_process_page evs ->
  rsrcmgr_flags evs = [] /\ get_pages_flags evs = [].
Proof.
  induction 1 as [|e evs He _ IH]; [split; reflexivity|].
  destruct e; cbn in He; try contradiction. exact IH.
Qed.

(** The calls of one run of [extract_text]. *)
Lemma extract_text_flags path fp pw pn mp caching cd
  (la : option LAParams) w :
  fs_open P path = inr fp ->
  rsrcmgr_flags (events (extract_text P path pw pn mp caching cd la w))
  = [rsrcmgr_caching_default P]
  /\ get_pages_flags (events (extract_text P path pw pn mp caching cd la w))
     = [caching].
Proof.
  intros Hopen. rewrite extract_text_run, Hopen. cbv zeta. cbn [events].
  match goal with
  | |- context [for_each_page ?b ?g ?w0] =>
      destruct (flags_process_pages _
                  (for_each_page_events b (process_page_events P _) g w0))
        as [Hr Hg]
  end.
  cbn. rewrite rsrcmgr_flags_app, get_pages_flags_app, Hr, Hg.
  split; reflexivity.
Qed.

(** In [extract_text_to_fp] the two flags are the same expression. *)
Lemma extract_text_to_fp_flags_agree inf outfp (a : FpArgs LAParams) w :
  caching_flags_agree (events (extract_text_to_fp P inf outfp a w)).
Proof.
  destruct (legacy_sentinel (kwargs a)) eqn:Hs.
  - rewrite (extract_text_to_fp_legacy P inf outfp a w Hs).
    intros c1 c2 [].
  - rewrite (extract_text_to_fp_run P inf outfp a w Hs).
    destruct (device_of P outfp a) as [d|].
    + cbv zeta.
      match goal with
      | |- context [for_each_page ?b ?g ?w0] =>
          destruct (flags_process_pages _
                      (for_each_page_events b
                         (rotate_and_process_events P _ (rotation a)) g w0))
            as [Hr Hg];
          destruct (res (for_each_page b g w0)) as [[]|e]
      end; cbn [events]; intros c1 c2;
        rewrite ?rsrcmgr_flags_app, ?get_pages_flags_app,
          rsrcmgr_flags_setup_events, get_pages_flags_setup_events,
          ?Hr, ?Hg; cbn; intros [H1|[]] [H2|[]]; congruence.
    + cbn [events]. intros c1 c2 _.
      rewrite get_pages_flags_setup_events. intros [].
Qed.

(** C2, where the code departs from it: [extract_text] builds its Resource
    Manager without the [caching] argument, so the manager has the flag of
    the class's default whatever the caller asked for, while the Document
    Source is given the caller's flag.  A caller who asks for the opposite
    of the default gets two different flags in one run. *)
Theorem extract_text_caching_flags_differ path fp pw pn mp cd
  (la : option LAParams) w :
  fs_open P path = inr fp ->
  ~ caching_flags_agree
      (events (extract_text P path pw pn mp
                 (negb (rsrcmgr_caching_default P)) cd la w)).
Proof.
  intros Hopen Hagree.
  destruct (extract_text_flags path fp pw pn mp
              (negb (rsrcmgr_caching_default P)) cd la w Hopen) as [Hr Hg].
  specialize (Hagree (rsrcmgr_caching_default P)
                (negb (rsrcmgr_caching_default P))).
  rewrite Hr, Hg in Hagree.
  specialize (Hagree (or_introl eq_refl) (or_introl eq_refl)).
  destruct (rsrcmgr_caching_default P); discriminate.
Qed.


(** C4, where the code departs from it: no run of [extract_text] closes
    the device. *)
Theorem extract_text_never_closes_device path pw pn mp caching cd
  (la : option LAParams) w :
  closes (events (extract_text P path pw pn mp caching cd la w)) = 0%nat.
Proof.
  rewrite extract_text_run.
  destruct (fs_open P path) as [e|fp]; [reflexivity|].
  cbv zeta. cbn [events].
  match goal with
  | |- context [for_each_page ?b ?g ?w0] =>
      pose proof (for_each_page_events b (process_page_events P _) g w0)
        as Hev
  end.
  cbn. rewrite closes_app, (closes_process_pages _ Hev). reflexivity.
Qed.

(** What does hold of a successful [extract_text]: the string returned is
    the text of the sink it allocated, and that sink is closed when the
    call returns. *)
Lemma extract_text_returns_sink_text path pw pn mp caching cd
  (la : option LAParams) w s :
  res (extract_text P path pw pn mp caching cd la w) = Ok s ->
  sink_text (final (extract_text P path pw pn mp caching cd la w))
    (next_sink w) = s
  /\ sink_closed (final (extract_text P path pw pn mp caching cd la w))
       (next_sink w) = true.
Proof.
  rewrite extract_text_run.
  destruct (fs_open P path) as [e|fp]; [discriminate|].
  cbv zeta. cbn [res final].
  case_loop; cbn [res final events]; [|discriminate].
  match goal with
  | |- context [if ?c then _ else _] => destruct c
  end; [discriminate|].
  intros H. inversion H. split; [reflexivity|].
  cbn. rewrite Nat.eqb_refl. reflexivity.
Qed.

(** C5: in a run of [extract_text_to_fp] over pages the Document Source
    yields once each, every page reaches the interpreter with the rotation
    [(r + d) mod 360], where [r] is the rotation the page had before the run
    and [d] the configured delta, of either sign; that value lies in
    [0, 360). *)
Theorem effective_rotation inf outfp (a : FpArgs LAParams) w :
  distinct (yielded (get_pages P (fp_get_pages_args P inf a))) = true ->
  forall l p,
    In (l, p) (processed (events (extract_text_to_fp P inf outfp a w))) ->
    rotate p = (rotate (pages w l) + rotation a) mod 360
    /\ 0 <= rotate p < 360.
Proof.
  intros Hd l p.
  destruct (legacy_sentinel (kwargs a)) eqn:Hs.
  - rewrite (extract_text_to_fp_legacy P inf outfp a w Hs). intros [].
  - rewrite (extract_text_to_fp_run P inf outfp a w Hs).
    destruct (device_of P outfp a) as [d|];
      [|cbn [events]; rewrite processed_setup_events; intros []].
    cbv zeta. intros Hin.
    assert (p = rotated (rotation a) (pages w l)) as Hp.
    { apply (rotate_loop_processed P
               (mkInterpreter (mkRsrcMgr (negb (disable_caching a))) d)
               (rotation a) _ Hd w l p).
      revert Hin.
      match goal with
      | |- context [for_each_page ?b ?g ?w0] =>
          destruct (res (for_each_page b g w0)) as [[]|e]
      end; cbn [events];
        rewrite !processed_app, processed_setup_events;
        cbn [processed app]; rewrite ?app_nil_r; exact (fun H => H). }
    subst p. unfold rotated, py_mod. cbn [rotate set_rotate].
    split; [reflexivity|]. apply Z.mod_pos_bound. lia.
Qed.

(** C6, as the code has it: the delta is assigned to the Page object
    itself.  After a run of [extract_text_to_fp] over pages yielded once
    each, a Page object that reached the interpreter carries
    [(r + d) mod 360], the value the interpreter read, its other attributes
    being as before; a Page object that did not reach the interpreter is
    unchanged. *)
Theorem rotation_delta_is_stored_in_page inf outfp (a : FpArgs LAParams) w :
  distinct (yielded (get_pages P (fp_get_pages_args P inf a))) = true ->
  forall l,
    (In l (map fst (processed
                      (events (extract_text_to_fp P inf outfp a w)))) ->
     pages (final (extract_text_to_fp P inf outfp a w)) l
     = rotated (rotation a) (pages w l))
    /\ (~ In l (map fst (processed
                          (events (extract_text_to_fp P inf outfp a w)))) ->
        pages (final (extract_text_to_fp P inf outfp a w)) l = pages w l).
Proof.
  intros Hd l.
  destruct (legacy_sentinel (kwargs a)) eqn:Hs.
  - rewrite (extract_text_to_fp_legacy P inf outfp a w Hs).
    split; [intros []|reflexivity].
  - rewrite (extract_text_to_fp_run P inf outfp a w Hs).
    destruct (device_of P outfp a) as [d|];
      [|cbn [events final]; rewrite processed_setup_events;
        split; [intros []|reflexivity]].
    cbv zeta.
    pose proof (rotate_loop_pages P
                  (mkInterpreter (mkRsrcMgr (negb (disable_caching a))) d)
                  (rotation a) _ Hd w l) as Hl.
    cbv zeta in Hl. revert Hl.
    match goal with
    | |- context [for_each_page ?b ?g ?w0] =>
        destruct (res (for_each_page b g w0)) as [[]|e]
    end; cbn [events final];
      rewrite !processed_app, processed_setup_events;
      cbn [processed app pages append_sink]; rewrite ?app_nil_r;
      exact (fun H => H).
Qed.


Lemma append_empty (s : string) : String.append s EmptyString = s.
Proof.
  induction s as [|c s IH]; [reflexivity|]. cbn. rewrite IH. reflexivity.
Qed.

Lemma rotated_zero (p : Page) :
  0 <= rotate p < 360 -> rotated 0 p = p.
Proof.
  intros H. unfold rotated, py_mod, set_rotate.
  rewrite Z.add_0_r, Z.mod_small by exact H. destruct p; reflexivity.
Qed.

(** The loop of [extract_text_to_fp] with no delta and the loop of
    [extract_text] do the same on pages whose rotation is in range. *)
Lemma loops_agree (i : Interpreter LAParams) gen :
  forall wA wB,
    (forall k, pages wA k = pages wB k) ->
    (forall o, sink_text wA o = sink_text wB o) ->
    (forall l, In l (yielded gen) -> 0 <= rotate (pages wA l) < 360) ->
    res (for_each_page (rotate_and_process P i 0) gen wA)
    = res (for_each_page (process_page P i) gen wB)
    /\ events (for_each_page (rotate_and_process P i 0) gen wA)
       = events (for_each_page (process_page P i) gen wB)
    /\ forall o,
         sink_text (final (for_each_page (rotate_and_process P i 0) gen wA)) o
         = sink_text (final (for_each_page (process_page P i) gen wB)) o.
Proof.
  induction gen as [|e|l rest IH]; intros wA wB Hp Hs Hr.
  - repeat split. exact Hs.
  - repeat split. exact Hs.
  - rewrite !for_each_page_yield.
    rewrite rotate_and_process_run, !process_page_run.
    cbn [res final events pages set_page].
    rewrite Nat.eqb_refl.
    rewrite (rotated_zero (pages wA l)) by (apply Hr; left; reflexivity).
    rewrite (Hp l).
    destruct (snd (render P (interp_device i) (pages wB l))) as [e|].
    + cbn [res final events]. repeat split.
      intros o. cbn. rewrite (Hs o). reflexivity.
    + cbv zeta.
      match goal with
      | |- context [for_each_page (rotate_and_process P i 0) rest ?w1] =>
          match goal with
          | |- context [for_each_page (process_page P i) rest ?w2] =>
              destruct (IH w1 w2) as (Hres & Hev & Hsink)
          end
      end.
      * intros k. cbn. destruct (Nat.eqb k l) eqn:E; [|apply Hp].
        apply Nat.eqb_eq in E. subst k. reflexivity.
      * intros o. cbn. rewrite (Hs o). reflexivity.
      * intros k Hk. cbn. destruct (Nat.eqb k l) eqn:E.
        -- rewrite <- (Hp l). apply Hr. left. reflexivity.
        -- apply Hr. right. exact Hk.
      * cbn [res final events]. rewrite Hres, Hev. repeat split. exact Hsink.
Qed.

Lemma process_loop_sink_closed (i : Interpreter LAParams) gen :
  forall w o,
    sink_closed (final (for_each_page (process_page P i) gen w)) o
    = sink_closed w o.
Proof.
  induction gen as [|e|l rest IH]; intros w o; try reflexivity.
  rewrite for_each_page_yield, process_page_run. cbn [res final].
  destruct (snd (render P (interp_device i) (pages w l))); cbn [final].
  - reflexivity.
  - rewrite IH. reflexivity.
Qed.

Lemma rotations_in_range_In w ls :
  rotations_in_range w ls = true ->
  forall l, In l ls -> 0 <= rotate (pages w l) < 360.
Proof.
  unfold rotations_in_range. rewrite forallb_forall. intros H l Hl.
  specialize (H l Hl). apply andb_true_iff in H. destruct H as [H1 H2].
  apply Z.leb_le in H1. apply Z.ltb_lt in H2. lia.
Qed.

(** C8: [extract_text] with its default Layout Parameters and
    [extract_text_to_fp] with [output_type='text'], the same codec, a default
    [LAParams()] and a fresh in-memory sink, run on the same document, give
    the same text: the string the first returns is the content of the sink
    of the second, and one ends normally when the other does.  The platform
    is the one the module is written for: the Resource Manager caches by
    default, a converter has no image writer by default, closing a text
    converter writes nothing, the password reaches the Document Source as
    given, and the rotation of a page is between 0 and 359. *)
Theorem extract_text_matches_text_variant path fp pw pn mp cd w :
  fs_open P path = inr fp ->
  rsrcmgr_caching_default P = true ->
  converter_imagewriter_default P = None ->
  decoded_password P pw = pw ->
  close_flush P (text_device P (next_sink w) cd None) = EmptyString ->
  rotations_in_range w
    (yielded (get_pages P (mkGetPagesArgs fp pn mp pw true true))) = true ->
  (forall s,
     res (extract_text P path pw pn mp true cd None w) = Ok s ->
     res (extract_text_to_fp P fp (next_sink w)
            (text_variant_args P cd mp pn pw) (alloc_sink w)) = Ok tt
     /\ sink_text (final (extract_text_to_fp P fp (next_sink w)
                            (text_variant_args P cd mp pn pw)
                            (alloc_sink w))) (next_sink w) = s)
  /\ (res (extract_text_to_fp P fp (next_sink w)
             (text_variant_args P cd mp pn pw) (alloc_sink w)) = Ok tt ->
      exists s, res (extract_text P path pw pn mp true cd None w) = Ok s).
Proof.
  intros Hopen Hcache Hiw Hpw Hflush Hrange.
  rewrite extract_text_run, Hopen.
  rewrite (extract_text_to_fp_run P fp (next_sink w)
             (text_variant_args P cd mp pn pw) (alloc_sink w) eq_refl).
  unfold text_interpreter in *. unfold text_device in *.
  rewrite Hcache, Hiw in *.
  unfold device_of, fp_get_pages_args, text_variant_args, imagewriter_of.
  cbn [output_type codec laparams maxpages page_numbers password scale
       rotation layoutmode output_dir strip_control debug disable_caching
       kwargs String.eqb Ascii.eqb Bool.eqb negb].
  rewrite Hpw. cbv zeta.
  set (i := mkInterpreter (mkRsrcMgr true)
              (TextConverter (mkRsrcMgr true) (next_sink w) cd
                 (Some (LAParams_default P)) None)).
  set (gen := get_pages P (mkGetPagesArgs fp pn mp pw true true)) in *.
  destruct (loops_agree i gen (alloc_sink w) (alloc_sink w)
              (fun _ => eq_refl) (fun _ => eq_refl)
              (rotations_in_range_In w _ Hrange))
    as (Hres & _ & Hsink).
  pose proof (process_loop_sink_closed i gen (alloc_sink w) (next_sink w))
    as Hclosed.
  cbn [sink_closed alloc_sink] in Hclosed.
  rewrite Nat.eqb_refl in Hclosed.
  rewrite Hres.
  destruct (res (for_each_page (process_page P i) gen (alloc_sink w)))
    as [[]|e]; cbn [res final].
  - rewrite Hclosed. split.
    + intros s Hs. inversion Hs. split; [reflexivity|].
      cbn [sink_text append_sink device_outfp].
      rewrite Nat.eqb_refl, Hflush, append_empty. apply Hsink.
    + intros _. eexists. reflexivity.
  - split; [discriminate|discriminate].
Qed.

End Runs.

(** ** The entry points on the two demonstration documents *)



(** [extract_text('plain.pdf', caching=False)] on a platform whose Resource
    Manager caches by default. *)
Lemma extract_text_caching_flags_differ_demo :
  ~ caching_flags_agree
      (events (extract_text Demo.platform "plain.pdf" "" None 0
                 (negb (rsrcmgr_caching_default Demo.platform)) "utf-8" None
                 Demo.world)).
Proof.
  apply (extract_text_caching_flags_differ Demo.platform "plain.pdf" 0%nat).
  reflexivity.
Defined.

Example extract_text_caching_flags_demo :
  let evs := events (extract_text Demo.platform "plain.pdf" "" None 0 false
                       "utf-8" None Demo.world) in
  rsrcmgr_flags evs = [true] /\ get_pages_flags evs = [false].
Proof.
  split; reflexivity.
Qed.


(** A successful [extract_text] has not closed its device either. *)
Example extract_text_does_not_close_once :
  ~ closed_exactly_once
      (events (extract_text Demo.platform "plain.pdf" "" None 0 true "utf-8"
                 None Demo.world)).
Proof.
  unfold closed_exactly_once. vm_compute. discriminate.
Qed.

(** The calls of that run, in order: no [close] on the device; the sink is
    closed after its value is read, then the file. *)
Example extract_text_demo_run :
  let o := extract_text Demo.platform "plain.pdf" "" None 0 true "utf-8"
             None Demo.world in
  let d := TextConverter (mkRsrcMgr true) 3%nat "utf-8" (Some 0%nat) None in
  res o = Ok "alpha beta "%string
  /\ events o
     = [EvOpenFile "plain.pdf" 0%nat; EvNewStringIO 3%nat;
        EvNewResourceManager (mkRsrcMgr true); EvNewDevice d;
        EvNewInterpreter (mkInterpreter (mkRsrcMgr true) d);
        EvGetPages (mkGetPagesArgs 0%nat None 0 "" true true);
        EvProcessPage d 0%nat (mkPage 0 0 "alpha ");
        EvProcessPage d 1%nat (mkPage 1 270 "beta ");
        EvCloseSink 3%nat; EvCloseFile 0%nat]
  /\ sink_closed (final o) 3%nat = true.
Proof.
  repeat split.
Qed.

Lemma effective_rotation_demo :
  rotate (mkPage 1 170 "beta ")
  = (rotate (pages Demo.world 1%nat) + rotation Demo.args_xml) mod 360
  /\ 0 <= rotate (mkPage 1 170 "beta ") < 360.
Proof.
  apply (effective_rotation Demo.platform 0%nat 2%nat Demo.args_xml
           Demo.world).
  - reflexivity.
  - simpl. right. left. reflexivity.
Defined.

(** Were a Page object yielded twice, the delta would be applied to it
    twice: the assignment of line 98 is to the object. *)
Example aliased_page_rotated_twice :
  map (fun lp => rotate (snd lp))
    (processed (events (extract_text_to_fp Demo.platform_aliased 0%nat 2%nat
                          Demo.args_rot90 Demo.world)))
  = [90; 180].
Proof.
  reflexivity.
Qed.

(** With [rotation=90] the first Page object, whose rotation was 0, is
    left with a rotation of 90. *)
Lemma rotation_delta_changes_page :
  ~ keeps_intrinsic_rotation Demo.world
      (final (extract_text_to_fp Demo.platform 0%nat 2%nat Demo.args_rot90
                Demo.world)).
Proof.
  intros H. specialize (H 0%nat). vm_compute in H. discriminate H.
Qed.

Lemma rotation_delta_is_stored_in_page_demo :
  pages (final (extract_text_to_fp Demo.platform 0%nat 2%nat Demo.args_rot90
                  Demo.world)) 0%nat
  = rotated (rotation Demo.args_rot90) (pages Demo.world 0%nat).
Proof.
  apply (proj1 (rotation_delta_is_stored_in_page Demo.platform 0%nat 2%nat
                  Demo.args_rot90 Demo.world eq_refl 0%nat)).
  simpl. left. reflexivity.
Defined.


Lemma extract_text_matches_text_variant_demo :
  res (extract_text_to_fp Demo.platform 0%nat 3%nat
         (text_variant_args Demo.platform "utf-8" 0 None "")
         (alloc_sink Demo.world)) = Ok tt
  /\ sink_text (final (extract_text_to_fp Demo.platform 0%nat 3%nat
                         (text_variant_args Demo.platform "utf-8" 0 None "")
                         (alloc_sink Demo.world))) 3%nat
     = "alpha beta "%string.
Proof.
  apply (proj1 (extract_text_matches_text_variant Demo.platform "plain.pdf"
                  0%nat "" None 0 "utf-8" Demo.world
                  eq_refl eq_refl eq_refl eq_refl eq_refl eq_refl)
           "alpha beta "%string).
  reflexivity.
Defined.

Lemma tag_output_ignores_laparams_demo :
  extract_text_to_fp Demo.platform 0%nat 2%nat
    (with_laparams (Demo.args_tag None) None) Demo.world
  = extract_text_to_fp Demo.platform 0%nat 2%nat
      (with_laparams (Demo.args_tag None) (Some 7%nat)) Demo.world
  /\ forall o,
       sink_text (final (extract_text_to_fp Demo.platform 0%nat 2%nat
                           (with_laparams (Demo.args_tag None) None)
                           Demo.world)) o
       = sink_text (final (extract_text_to_fp Demo.platform 0%nat 2%nat
                             (with_laparams (Demo.args_tag None)
                                (Some 7%nat)) Demo.world)) o.
Proof.
  apply (tag_output_ignores_laparams Demo.platform 0%nat 2%nat
           (Demo.args_tag None) None (Some 7%nat) Demo.world).
  reflexivity.
Defined.

(** The text device, for one, does see the Layout Parameters. *)
Example text_device_sees_laparams :
  events (extract_text_to_fp Demo.platform 0%nat 2%nat
            (with_laparams Demo.args_rot90 None) Demo.world)
  <> events (extract_text_to_fp Demo.platform 0%nat 2%nat
               (with_laparams Demo.args_rot90 (Some 7%nat)) Demo.world).
Proof.
  vm_compute. discriminate.
Qed.

Lemma legacy_keyword_raises_first_demo :
  extract_text_to_fp Demo.platform 0%nat 2%nat Demo.args_legacy Demo.world
  = mkOutcome (Raise (DeprecationWarning deprecation_message)) Demo.world []
  /\ forall msg,
       res (extract_text_to_fp Demo.platform 0%nat 2%nat Demo.args_rot90
              Demo.world)
       <> Raise (DeprecationWarning msg).
Proof.
  split.
  - apply (proj1 (legacy_keyword_raises_first Demo.platform 0%nat 2%nat
                    Demo.args_legacy Demo.world) PyNone).
    simpl. left. reflexivity.
  - apply (proj2 (legacy_keyword_raises_first Demo.platform 0%nat 2%nat
                    Demo.args_rot90 Demo.world)).
    intros v H. exact H.
Defined.

(** ** The page loops against the reference interpretation *)

Section LoopReference.

Context {LAParams : Type}.
Variable P : Platform LAParams.

Lemma append_assoc (s1 s2 s3 : string) :
  String.append (String.append s1 s2) s3
  = String.append s1 (String.append s2 s3).
Proof.
  induction s1 as [|c s1 IH]; [reflexivity|]. cbn. rewrite IH. reflexivity.
Qed.

(** Loops whose bodies do the same do the same. *)
Lemma for_each_page_ext (b1 b2 : loc -> M LAParams unit) gen :
  (forall l w, b1 l w = b2 l w) ->
  forall w, for_each_page b1 gen w = for_each_page b2 gen w.
Proof.
  intros Hb. induction gen as [|e|l rest IH]; intros w; try reflexivity.
  rewrite !for_each_page_yield, Hb.
  destruct (res (b2 l w)) as [[]|e]; [|reflexivity].
  cbv zeta. rewrite IH. reflexivity.
Qed.


(** The loop of [extract_text]: it ends as the reference does, writes the
    reference's text at the end of the device's sink, and leaves the Page
    objects, the other sinks and the allocation of sinks alone. *)
Lemma process_loop_reference (i : Interpreter LAParams) gen :
  forall w,
    res (for_each_page (process_page P i) gen w)
    = result_of (snd (interpret_all P (interp_device i) (pages w) gen))
    /\ pages (final (for_each_page (process_page P i) gen w)) = pages w
    /\ next_sink (final (for_each_page (process_page P i) gen w))
       = next_sink w
    /\ forall o,
         sink_text (final (for_each_page (process_page P i) gen w)) o
         = if Nat.eqb o (device_outfp (interp_device i))
           then String.append (sink_text w o)
                  (fst (interpret_all P (interp_device i) (pages w) gen))
           else sink_text w o.
Proof.
  induction gen as [|e|l rest IH]; intros w.
  - cbn. repeat split. intros o.
    destruct (Nat.eqb o _); [rewrite append_empty|]; reflexivity.
  - cbn. repeat split. intros o.
    destruct (Nat.eqb o _); [rewrite append_empty|]; reflexivity.
  - rewrite for_each_page_yield, process_page_run.
    cbn [res final events interpret_all].
    destruct (snd (render P (interp_device i) (pages w l))) as [e|].
    + cbn [res final snd fst]. repeat split.
    + cbv zeta. cbn [res final snd fst].
      destruct (IH (append_sink w (device_outfp (interp_device i))
                      (fst (render P (interp_device i) (pages w l)))))
        as (Hres & Hpages & Hnext & Hsink).
      cbn [pages next_sink append_sink] in Hres, Hpages, Hnext.
      repeat split; try assumption.
      intros o. rewrite Hsink. cbn [sink_text append_sink].
      destruct (Nat.eqb o (device_outfp (interp_device i)));
        [apply append_assoc|reflexivity].
Qed.


(** Neither loop closes a sink or allocates one. *)
Lemma rotate_loop_sinks (i : Interpreter LAParams) d gen :
  forall w,
    sink_closed (final (for_each_page (rotate_and_process P i d) gen w))
    = sink_closed w
    /\ next_sink (final (for_each_page (rotate_and_process P i d) gen w))
       = next_sink w.
Proof.
  induction gen as [|e|l rest IH]; intros w; try (split; reflexivity).
  rewrite for_each_page_yield, rotate_and_process_run, process_page_run.
  cbn [res final].
  match goal with
  | |- context [match ?x with Some _ => _ | None => _ end] => destruct x
  end; cbn [res final].
  - split; reflexivity.
  - match goal with
    | |- context [for_each_page _ rest ?w1] => destruct (IH w1) as [Hc Hn]
    end.
    rewrite Hc, Hn. split; reflexivity.
Qed.

End LoopReference.

(** ** More about [extract_text] *)

Section ExtractText.

Context {LAParams : Type}.
Variable P : Platform LAParams.

Lemma existsb_release_app (evs1 evs2 : list (Event LAParams)) :
  existsb is_release (evs1 ++ evs2)
  = existsb is_release evs1 || existsb is_release evs2.
Proof.
  apply existsb_app.
Qed.

Lemma release_process_pages (evs : list (Event LAParams)) :
  Forall is_process_page evs -> existsb is_release evs = false.
Proof.
  induction 1 as [|e evs He _ IH]; [reflexivity|].
  destruct e; cbn in He; try contradiction. exact IH.
Qed.

(** X1: on a file that opens, [extract_text] returns the text the device
    writes for the pages of the Document Source, in the order they are
    yielded, read as they are in the heap; and when the Document Source or
    the interpreter raises, it ends with that exception, unchanged. *)
Theorem extract_text_reference path fp pw pn mp caching cd
  (la : option LAParams) w :
  fs_open P path = inr fp ->
  res (extract_text P path pw pn mp caching cd la w)
  = match snd (interpret_all P (text_device P (next_sink w) cd la) (pages w)
                 (get_pages P (mkGetPagesArgs fp pn mp pw caching true)))
    with
    | None =>
        Ok (fst (interpret_all P (text_device P (next_sink w) cd la)
                   (pages w)
                   (get_pages P (mkGetPagesArgs fp pn mp pw caching true))))
    | Some e => Raise (Propagated e)
    end.
Proof.
  intros Hopen. rewrite extract_text_run, Hopen. cbv zeta. cbn [res].
  set (i := text_interpreter P (next_sink w) cd la).
  set (gen := get_pages P (mkGetPagesArgs fp pn mp pw caching true)).
  destruct (process_loop_reference P i gen (alloc_sink w))
    as (Hres & _ & _ & Hsink).
  pose proof (process_loop_sink_closed P i gen (alloc_sink w) (next_sink w))
    as Hclosed.
  cbn [sink_closed alloc_sink] in Hclosed.
  rewrite Nat.eqb_refl in Hclosed.
  rewrite Hres, Hclosed, (Hsink (next_sink w)). subst i.
  unfold text_interpreter.
  cbn [interp_device pages alloc_sink].
  destruct (snd (interpret_all P (text_device P (next_sink w) cd la)
                   (pages w) gen)) as [e|]; cbn [result_of]; [reflexivity|].
  unfold text_device at 1. cbn [device_outfp].
  rewrite Nat.eqb_refl. cbn [sink_text alloc_sink].
  rewrite Nat.eqb_refl. reflexivity.
Qed.

(** X2: [extract_text] works on a sink of its own: it leaves every Page
    object as it was, and the text and the state of every sink that existed
    before the call. *)
Theorem extract_text_frame path pw pn mp caching cd (la : option LAParams)
  w :
  pages (final (extract_text P path pw pn mp caching cd la w)) = pages w
  /\ forall o,
       o <> next_sink w ->
       sink_text (final (extract_text P path pw pn mp caching cd la w)) o
       = sink_text w o
       /\ sink_closed (final (extract_text P path pw pn mp caching cd la w))
            o
          = sink_closed w o.
Proof.
  rewrite extract_text_run.
  destruct (fs_open P path) as [e|fp]; [split; [reflexivity|]; split;
                                        reflexivity|].
  cbv zeta. cbn [final].
  set (i := text_interpreter P (next_sink w) cd la).
  set (gen := get_pages P (mkGetPagesArgs fp pn mp pw caching true)).
  destruct (process_loop_reference P i gen (alloc_sink w))
    as (_ & Hpages & _ & Hsink).
  split; [exact Hpages|].
  intros o Ho. apply Nat.eqb_neq in Ho.
  cbn [sink_text sink_closed close_sink].
  rewrite (Hsink o), (process_loop_sink_closed P i gen (alloc_sink w) o).
  subst i. unfold text_interpreter, text_device. cbn [interp_device
    device_outfp sink_text sink_closed alloc_sink].
  rewrite Ho. split; reflexivity.
Qed.

(** X3: once the file is open, [extract_text] closes its sink and then the
    file as its last two calls, on every path out of the [with] block, be it
    the [return] or an exception; it closes nothing before. *)
Theorem extract_text_releases_on_every_path path fp pw pn mp caching cd
  (la : option LAParams) w :
  fs_open P path = inr fp ->
  exists before,
    events (extract_text P path pw pn mp caching cd la w)
    = (before ++ [EvCloseSink (next_sink w); EvCloseFile fp])%list
    /\ existsb is_release before = false
    /\ sink_closed (final (extract_text P path pw pn mp caching cd la w))
         (next_sink w) = true.
Proof.
  intros Hopen. rewrite extract_text_run, Hopen. cbv zeta.
  cbn [events final].
  match goal with
  | |- context [for_each_page ?b ?g ?w0] =>
      pose proof (for_each_page_events b (process_page_events P _) g w0)
        as Hev
  end.
  eexists. split; [|split].
  - rewrite app_assoc. reflexivity.
  - rewrite existsb_release_app, (release_process_pages _ Hev). reflexivity.
  - cbn. rewrite Nat.eqb_refl. reflexivity.
Qed.

(** X4: when the file does not open, [extract_text] ends with the
    exception of [open] and has done nothing else: no sink is allocated, no
    collaborator is built, the world is as before. *)
Theorem extract_text_open_failure path e pw pn mp caching cd
  (la : option LAParams) w :
  fs_open P path = inl e ->
  extract_text P path pw pn mp caching cd la w
  = mkOutcome (Raise (Propagated e)) w [].
Proof.
  intros Hopen. rewrite extract_text_run, Hopen. reflexivity.
Qed.

(** X5: [extract_text] hands pages to the interpreter in the order the
    Document Source yields them, each once and none skipped: the pages
    interpreted are the first pages yielded, and all of them when the call
    returns. *)
Theorem extract_text_page_order path fp pw pn mp caching cd
  (la : option LAParams) w :
  fs_open P path = inr fp ->
  (exists later,
     yielded (get_pages P (mkGetPagesArgs fp pn mp pw caching true))
     = (map fst (processed
                   (events (extract_text P path pw pn mp caching cd la w)))
        ++ later)%list)
  /\ forall s,
       res (extract_text P path pw pn mp caching cd la w) = Ok s ->
       map fst (processed
                  (events (extract_text P path pw pn mp caching cd la w)))
       = yielded (get_pages P (mkGetPagesArgs fp pn mp pw caching true)).
Proof.
  intros Hopen. rewrite extract_text_run, Hopen. cbv zeta.
  cbn [events res].
  set (i := text_interpreter P (next_sink w) cd la).
  set (gen := get_pages P (mkGetPagesArgs fp pn mp pw caching true)).
  assert (forall evs : list (Event LAParams),
            processed
              ([EvOpenFile path fp; EvNewStringIO (next_sink w);
                EvNewResourceManager (mkRsrcMgr (rsrcmgr_caching_default P));
                EvNewDevice (text_device P (next_sink w) cd la);
                EvNewInterpreter i;
                EvGetPages (mkGetPagesArgs fp pn mp pw caching true)]
               ++ evs ++ [EvCloseSink (next_sink w); EvCloseFile fp])
            = processed evs) as Hproc.
  { intros evs. cbn. rewrite processed_app. cbn. apply app_nil_r. }
  rewrite Hproc.
  split.
  - apply (for_each_page_prefix (process_page P i)
             (process_page_events P i) gen (alloc_sink w)).
  - intros s Hs.
    apply (for_each_page_complete (process_page P i)
             (process_page_events P i) gen (alloc_sink w)).
    destruct (res (for_each_page (process_page P i) gen (alloc_sink w)))
      as [[]|e]; [reflexivity|discriminate].
Qed.

End ExtractText.

(** ** More about [extract_text_to_fp] *)

Section ExtractTextToFp.

Context {LAParams : Type}.
Variable P : Platform LAParams.

Ltac by_cases_on_events :=
  let e := fresh "e" in
  let evs := fresh "evs" in
  let IH := fresh "IH" in
  intros evs; induction evs as [|e evs IH]; intros;
  [reflexivity|destruct e; cbn; rewrite ?IH; reflexivity].

Lemma devices_built_app (evs1 evs2 : list (Event LAParams)) :
  devices_built (evs1 ++ evs2)
  = (devices_built evs1 ++ devices_built evs2)%list.
Proof.
  revert evs2. revert evs1. by_cases_on_events.
Qed.


Lemma image_writers_built_app (evs1 evs2 : list (Event LAParams)) :
  image_writers_built (evs1 ++ evs2)
  = (image_writers_built evs1 ++ image_writers_built evs2)%list.
Proof.
  revert evs2. revert evs1. by_cases_on_events.
Qed.

Lemma get_pages_calls_app (evs1 evs2 : list (Event LAParams)) :
  get_pages_calls (evs1 ++ evs2)
  = (get_pages_calls evs1 ++ get_pages_calls evs2)%list.
Proof.
  revert evs2. revert evs1. by_cases_on_events.
Qed.

(** The page loop builds nothing and asks the Document Source nothing. *)
Lemma nothing_built_process_pages (evs : list (Event LAParams)) :
  Forall is_process_page evs ->
  devices_built evs = [] /\ interpreters_built evs = []
  /\ image_writers_built evs = [] /\ get_pages_calls evs = [].
Proof.
  induction 1 as [|e evs He _ IH]; [repeat split|].
  destruct e; cbn in He; try contradiction. exact IH.
Qed.


(** Adding a multiple of 360 to the delta changes no iteration. *)
Lemma rotate_and_process_modulo (i : Interpreter LAParams) d k l w :
  rotate_and_process P i (d + 360 * k) l w = rotate_and_process P i d l w.
Proof.
  rewrite !rotate_and_process_run. unfold rotated, py_mod.
  replace (rotate (pages w l) + (d + 360 * k))
    with (rotate (pages w l) + d + k * 360) by lia.
  rewrite Z.mod_add by lia. reflexivity.
Qed.

(** X6: [extract_text_to_fp] hands pages to the interpreter in the order the
    Document Source yields them, each once and none skipped, in every run,
    also one that ends with an exception: the pages interpreted are the
    first pages yielded. *)
Theorem extract_text_to_fp_page_order inf outfp (a : FpArgs LAParams) w :
  exists later,
    yielded (get_pages P (fp_get_pages_args P inf a))
    = (map fst (processed (events (extract_text_to_fp P inf outfp a w)))
       ++ later)%list.
Proof.
  destruct (legacy_sentinel (kwargs a)) eqn:Hs.
  - rewrite (extract_text_to_fp_legacy P inf outfp a w Hs).
    eexists. reflexivity.
  - rewrite (extract_text_to_fp_run P inf outfp a w Hs).
    destruct (device_of P outfp a) as [d|].
    + cbv zeta.
      match goal with
      | |- context [for_each_page ?b ?g ?w0] =>
          destruct (for_each_page_prefix b
                      (rotate_and_process_events P _ (rotation a)) g w0)
            as (later & Hl);
          destruct (res (for_each_page b g w0)) as [[]|e]
      end; cbn [events];
        rewrite !processed_app, processed_setup_events;
        cbn [processed app]; rewrite ?app_nil_r;
        exists later; exact Hl.
    + cbn [events]. rewrite processed_setup_events. eexists. reflexivity.
Qed.


(** X8: [extract_text_to_fp] closes no sink and allocates none: the
    caller's [outfp] is as open after the call as before, however the call
    ends. *)
Theorem extract_text_to_fp_leaves_sinks_open inf outfp (a : FpArgs LAParams)
  w :
  sink_closed (final (extract_text_to_fp P inf outfp a w)) = sink_closed w
  /\ next_sink (final (extract_text_to_fp P inf outfp a w)) = next_sink w.
Proof.
  destruct (legacy_sentinel (kwargs a)) eqn:Hs.
  - rewrite (extract_text_to_fp_legacy P inf outfp a w Hs).
    split; reflexivity.
  - rewrite (extract_text_to_fp_run P inf outfp a w Hs).
    destruct (device_of P outfp a) as [d|]; [|split; reflexivity].
    cbv zeta.
    match goal with
    | |- context [for_each_page (rotate_and_process P ?i ?r) ?g ?w0] =>
        destruct (rotate_loop_sinks P i r g w0) as [Hc Hn];
        destruct (res (for_each_page (rotate_and_process P i r) g w0))
          as [[]|e]
    end; cbn [final sink_closed next_sink append_sink]; split; assumption.
Qed.

(** X9: the [debug] flag changes nothing but the log level: a run with
    [debug=True] ends as the run with [debug=False] does, in the same
    world, after the same calls, the setting of the log level coming first
    (and not at all when the legacy keyword stops the call). *)
Theorem debug_only_sets_log_level inf outfp (a : FpArgs LAParams) w :
  res (extract_text_to_fp P inf outfp (with_debug a true) w)
  = res (extract_text_to_fp P inf outfp (with_debug a false) w)
  /\ final (extract_text_to_fp P inf outfp (with_debug a true) w)
     = final (extract_text_to_fp P inf outfp (with_debug a false) w)
  /\ events (extract_text_to_fp P inf outfp (with_debug a true) w)
     = ((if legacy_sentinel (kwargs a) then [] else [EvSetLogLevelDebug])
        ++ events (extract_text_to_fp P inf outfp (with_debug a false) w))%list.
Proof.
  destruct (legacy_sentinel (kwargs a)) eqn:Hs.
  - rewrite (extract_text_to_fp_legacy P inf outfp (with_debug a true) w Hs),
      (extract_text_to_fp_legacy P inf outfp (with_debug a false) w Hs).
    repeat split.
  - rewrite (extract_text_to_fp_run P inf outfp (with_debug a true) w Hs),
      (extract_text_to_fp_run P inf outfp (with_debug a false) w Hs).
    unfold device_of, setup_events, imagewriter_of, fp_get_pages_args,
      with_debug.
    cbn [output_type codec laparams maxpages page_numbers password scale
         rotation layoutmode output_dir strip_control debug disable_caching
         kwargs].
    match goal with
    | |- context [if String.eqb ?t "xml" then ?x else ?y] =>
        destruct (if String.eqb t "xml" then x else y) as [d|]
    end; [|repeat split].
    cbv zeta.
    match goal with
    | |- context [for_each_page ?b ?g ?w0] =>
        destruct (res (for_each_page b g w0)) as [[]|e]
    end; repeat split.
Qed.

(** X10: keyword arguments other than the legacy one are accepted and
    ignored: two calls that differ only in them do the same. *)
Theorem other_keywords_are_ignored inf outfp (a : FpArgs LAParams)
  (kw1 kw2 : Kwargs) w :
  dict_contains "_py2_no_more_posargs" kw1 = false ->
  dict_contains "_py2_no_more_posargs" kw2 = false ->
  extract_text_to_fp P inf outfp (with_kwargs a kw1) w
  = extract_text_to_fp P inf outfp (with_kwargs a kw2) w.
Proof.
  intros H1 H2. unfold extract_text_to_fp, with_kwargs.
  cbn [output_type codec laparams maxpages page_numbers password scale
       rotation layoutmode output_dir strip_control debug disable_caching
       kwargs].
  rewrite !legacy_sentinel_dict_contains, H1, H2. reflexivity.
Qed.

(** An empty [output_dir] is no [output_dir]: the test of line 68 is on the
    truth of the string. *)
Remark empty_output_dir_is_none inf outfp (a : FpArgs LAParams) w :
  extract_text_to_fp P inf outfp (with_output_dir a (Some EmptyString)) w
  = extract_text_to_fp P inf outfp (with_output_dir a None) w.
Proof.
  reflexivity.
Qed.

(** X11: only the delta modulo 360 matters: adding a whole number of turns
    to [rotation] changes nothing of the run. *)
Theorem rotation_delta_modulo_360 inf outfp (a : FpArgs LAParams) d k w :
  extract_text_to_fp P inf outfp (with_rotation a (d + 360 * k)) w
  = extract_text_to_fp P inf outfp (with_rotation a d) w.
Proof.
  destruct (legacy_sentinel (kwargs a)) eqn:Hs.
  - rewrite (extract_text_to_fp_legacy P inf outfp
               (with_rotation a (d + 360 * k)) w Hs),
      (extract_text_to_fp_legacy P inf outfp (with_rotation a d) w Hs).
    reflexivity.
  - rewrite (extract_text_to_fp_run P inf outfp
               (with_rotation a (d + 360 * k)) w Hs),
      (extract_text_to_fp_run P inf outfp (with_rotation a d) w Hs).
    unfold device_of, setup_events, imagewriter_of, fp_get_pages_args,
      with_rotation.
    cbn [output_type codec laparams maxpages page_numbers password scale
         rotation layoutmode output_dir strip_control debug disable_caching
         kwargs].
    match goal with
    | |- context [if String.eqb ?t "xml" then ?x else ?y] =>
        destruct (if String.eqb t "xml" then x else y) as [dev|]
    end; [|reflexivity].
    cbv zeta.
    match goal with
    | |- context [for_each_page (rotate_and_process P ?i (d + 360 * k)) ?g
                    ?w0] =>
        rewrite (for_each_page_ext
                   (rotate_and_process P i (d + 360 * k))
                   (rotate_and_process P i d) g
                   (rotate_and_process_modulo i d k) w0)
    end.
    reflexivity.
Qed.





(** X16: the collaborators of [extract_text], on a file that opens: one
    text device on the call's own sink, always with Layout Parameters (the
    caller's, or a default [LAParams()] in place of [None]) and never with
    an image writer of the call's making; one request to the Document
    Source, with the caller's arguments as they are and
    [check_extractable=True]. *)
Theorem extract_text_collaborators path fp pw pn mp caching cd
  (la : option LAParams) w :
  fs_open P path = inr fp ->
  devices_built (events (extract_text P path pw pn mp caching cd la w))
  = [TextConverter (mkRsrcMgr (rsrcmgr_caching_default P)) (next_sink w) cd
       (Some match la with
             | None => LAParams_default P
             | Some x => x
             end)
       (converter_imagewriter_default P)]
  /\ get_pages_calls (events (extract_text P path pw pn mp caching cd la w))
     = [mkGetPagesArgs fp pn mp pw caching true]
  /\ image_writers_built
       (events (extract_text P path pw pn mp caching cd la w)) = [].
Proof.
  intros Hopen. rewrite extract_text_run, Hopen. cbv zeta. cbn [events].
  match goal with
  | |- context [for_each_page ?b ?g ?w0] =>
      destruct (nothing_built_process_pages _
                  (for_each_page_events b (process_page_events P _) g w0))
        as (Hd & _ & Hi & Hg)
  end.
  cbn. rewrite devices_built_app, get_pages_calls_app,
         image_writers_built_app, Hd, Hi, Hg.
  repeat split.
Qed.

End ExtractTextToFp.

(** ** The entry points on a platform whose interpreter fails *)

Lemma extract_text_reference_demo :
  res (extract_text Faulty.platform "plain.pdf" "" None 0 true "utf-8" None
         Demo.world)
  = Raise (Propagated InterpretError).
Proof.
  exact (extract_text_reference Faulty.platform "plain.pdf" 0%nat "" None 0
           true "utf-8" None Demo.world eq_refl).
Defined.

Example extract_text_reference_success :
  res (extract_text Demo.platform "plain.pdf" "" None 0 true "utf-8" None
         Demo.world)
  = Ok "alpha beta "%string.
Proof.
  exact (extract_text_reference Demo.platform "plain.pdf" 0%nat "" None 0
           true "utf-8" None Demo.world eq_refl).
Qed.

Lemma extract_text_frame_demo :
  sink_text (final (extract_text Faulty.platform "plain.pdf" "" None 0 true
                      "utf-8" None Demo.world)) 2%nat
  = sink_text Demo.world 2%nat
  /\ sink_closed (final (extract_text Faulty.platform "plain.pdf" "" None 0
                           true "utf-8" None Demo.world)) 2%nat
     = sink_closed Demo.world 2%nat.
Proof.
  apply (proj2 (extract_text_frame Faulty.platform "plain.pdf" "" None 0
                  true "utf-8" None Demo.world) 2%nat).
  simpl. lia.
Defined.

Lemma extract_text_releases_on_every_path_demo :
  exists before,
    events (extract_text Faulty.platform "plain.pdf" "" None 0 true "utf-8"
              None Demo.world)
    = (before ++ [EvCloseSink (next_sink Demo.world); EvCloseFile 0%nat])%list
    /\ existsb is_release before = false
    /\ sink_closed (final (extract_text Faulty.platform "plain.pdf" "" None 0
                             true "utf-8" None Demo.world))
         (next_sink Demo.world) = true.
Proof.
  apply (extract_text_releases_on_every_path Faulty.platform "plain.pdf"
           0%nat).
  reflexivity.
Defined.

Lemma extract_text_open_failure_demo :
  extract_text Demo.platform "missing.pdf" "" None 0 true "utf-8" None
    Demo.world
  = mkOutcome (Raise (Propagated IOError)) Demo.world [].
Proof.
  apply (extract_text_open_failure Demo.platform "missing.pdf" IOError).
  reflexivity.
Defined.

Lemma extract_text_page_order_demo :
  (exists later,
     yielded (get_pages Faulty.platform
                (mkGetPagesArgs 0%nat None 0 "" true true))
     = (map fst (processed
                   (events (extract_text Faulty.platform "plain.pdf" "" None
                              0 true "utf-8" None Demo.world)))
        ++ later)%list)
  /\ forall s,
       res (extract_text Faulty.platform "plain.pdf" "" None 0 true "utf-8"
              None Demo.world) = Ok s ->
       map fst (processed
                  (events (extract_text Faulty.platform "plain.pdf" "" None
                             0 true "utf-8" None Demo.world)))
       = yielded (get_pages Faulty.platform
                    (mkGetPagesArgs 0%nat None 0 "" true true)).
Proof.
  apply (extract_text_page_order Faulty.platform "plain.pdf" 0%nat).
  reflexivity.
Defined.

(** Of three pages the third is never interpreted: the second raises. *)
Example faulty_run_stops_at_second_page :
  map fst (processed
             (events (extract_text_to_fp Faulty.platform 0%nat 0%nat
                        Faulty.args_stdout_xml Demo.world)))
  = [0%nat; 1%nat]
  /\ yielded (get_pages Faulty.platform
                (fp_get_pages_args Faulty.platform 0%nat
                   Faulty.args_stdout_xml))
     = [0%nat; 1%nat; 2%nat].
Proof.
  split; reflexivity.
Qed.


Lemma other_keywords_are_ignored_demo :
  extract_text_to_fp Faulty.platform 0%nat 0%nat
    (with_kwargs Faulty.args_stdout_xml [("color"%string, PyStr "red")])
    Demo.world
  = extract_text_to_fp Faulty.platform 0%nat 0%nat
      (with_kwargs Faulty.args_stdout_xml []) Demo.world.
Proof.
  apply (other_keywords_are_ignored Faulty.platform 0%nat 0%nat
           Faulty.args_stdout_xml [("color"%string, PyStr "red")] []
           Demo.world).
  - reflexivity.
  - reflexivity.
Defined.



Lemma extract_text_collaborators_demo :
  devices_built (events (extract_text Faulty.platform "plain.pdf" "pw"
                           (Some [1%nat]) 5 false "latin-1" None Demo.world))
  = [TextConverter (mkRsrcMgr true) 3%nat "latin-1" (Some 0%nat) None]
  /\ get_pages_calls (events (extract_text Faulty.platform "plain.pdf" "pw"
                                (Some [1%nat]) 5 false "latin-1" None
                                Demo.world))
     = [mkGetPagesArgs 0%nat (Some [1%nat]) 5 "pw" false true]
  /\ image_writers_built
       (events (extract_text Faulty.platform "plain.pdf" "pw" (Some [1%nat])
                  5 false "latin-1" None Demo.world)) = [].
Proof.
  apply (extract_text_collaborators Faulty.platform "plain.pdf" 0%nat).
  reflexivity.
Defined.
